(** * Animation storyboard engine of the resume scanner

    A shallow embedding of [utils/animationStoryboard.ts]
    ([generateAnimationStoryboard], [getTagText], [createCurvedPath],
    [extractPDFSections], [getDefaultStoryboard]) and of the [useMemo] of
    [components/AnimatedPDFScanner.tsx] that calls them, with the
    properties of the storyboards they build.

    Numbers.  A JavaScript [number] is an IEEE 754 binary64 value.
    Coordinates, sizes and confidences are modelled by Rocq's primitive
    [float], which is that very format with round-to-nearest-even.
    Timeline values are kept in [Z]: they are sums of the integer
    constants 8000, 12000, 4000, 300 and 100, and a JavaScript array has
    fewer than 2^32 elements, so every timeline stays below 2^53 where
    binary64 arithmetic on integers is exact ([timeline_exact] below). *)

From Stdlib Require Import ZArith List Bool String Ascii Floats Lia.
From Stdlib Require Import Sorting.Sorted.
Import ListNotations.

Set Warnings "-inexact-float".

Local Open Scope Z_scope.

(** ** Numbers *)

(** [Math.PI]: the binary64 number nearest to pi. *)
Definition Math_PI : float := 0x1.921fb54442d18p+1%float.

(** The value of a loop counter that started at [0] and went through
    [i++] [n] times. *)
Fixpoint numOfNat (n : nat) : float :=
  match n with
  | O => 0%float
  | S n' => (numOfNat n' + 1)%float
  end.

(** *** A reference sine

    ECMAScript leaves [Math.sin] implementation-approximated and only fixes
    its values at NaN, the zeros and the infinities.  The model below is
    therefore parameterised by the sine; [sin_approx] is one admissible
    realisation (argument reduction by multiples of pi in two pieces, then
    an odd polynomial), used to run the model on examples. *)

Definition PI_lo : float := 0x1.1a62633145c07p-53%float.

Definition round_int (v : float) : float :=
  ((v + 0x1.8p52) - 0x1.8p52)%float.

Definition sin_coeffs : list float :=
  [ (1 / 355687428096000); (- (1 / 1307674368000)); (1 / 6227020800);
    (- (1 / 39916800)); (1 / 362880); (- (1 / 5040)); (1 / 120);
    (- (1 / 6)); 1 ]%float.

(** Horner evaluation of the odd Taylor polynomial of degree 17. *)
Definition sin_kernel (r : float) : float :=
  let r2 := (r * r)%float in
  (r * fold_left (fun acc c => acc * r2 + c) sin_coeffs 0)%float.

Definition sin_approx (v : float) : float :=
  if is_nan v || is_infinity v then nan
  else if is_zero v then v
  else
    let k := round_int (v / Math_PI) in
    let r := ((v - k * Math_PI) - k * PI_lo)%float in
    let h := round_int (k * 0.5) in
    if (k - 2 * h =? 0)%float then sin_kernel r else (- sin_kernel r)%float.

(** ** Data model *)

(** [{ x: number; y: number }] *)
Record Position : Type := mkPosition {
  pos_x : float;
  pos_y : float
}.

(** [{ x: number; y: number; width: number; height: number }] *)
Record BoundingBox : Type := mkBox {
  x : float;
  y : float;
  width : float;
  height : float
}.

(** [pdfDimensions: { width: number; height: number }] *)
Record Dimensions : Type := mkDimensions {
  dim_width : float;
  dim_height : float
}.

(** ['name' | 'contact' | 'skills' | 'experience' | 'education'] *)
Inductive SectionType : Type :=
  | name_t | contact_t | skills_t | experience_t | education_t.

(** The string a [SectionType] value is at run time. *)
Definition type_string (k : SectionType) : string :=
  match k with
  | name_t => "name"
  | contact_t => "contact"
  | skills_t => "skills"
  | experience_t => "experience"
  | education_t => "education"
  end.

(** ['move' | 'pause' | 'glow' | 'tag_popout' | 'beam_transfer' | 'complete'] *)
Inductive Action : Type :=
  | move | pause | glow | tag_popout | beam_transfer | complete.

Definition Action_eqb (a b : Action) : bool :=
  match a, b with
  | move, move | pause, pause | glow, glow
  | tag_popout, tag_popout | beam_transfer, beam_transfer
  | complete, complete => true
  | _, _ => false
  end.

(** [interface AnimationStep]; an optional field is an [option]. *)
Record AnimationStep : Type := mkStep {
  timeline : Z;
  bubble_position : Position;
  highlight_area : option BoundingBox;
  tag_text : option string;
  animation_action : Action;
  section_type : option SectionType
}.

(** [interface PDFSection] *)
Record PDFSection : Type := mkSection {
  type : SectionType;
  text : string;
  boundingBox : BoundingBox;
  confidence : float
}.

(** ** [getTagText] *)

Definition getTagText (sectionType : string) : string :=
  if String.eqb sectionType "name" then "Name Detected"
  else if String.eqb sectionType "contact" then "Contact Extracted"
  else if String.eqb sectionType "skills" then "Skills Identified"
  else if String.eqb sectionType "experience" then "Experience Analyzed"
  else if String.eqb sectionType "education" then "Education Verified"
  else "Section Detected".

(** ** The storyboard under construction

    [generateAnimationStoryboard] mutates two locals, the array
    [storyboard] and the cursor [currentTime]; reading a property of
    [undefined] raises a [TypeError].  Both are threaded through a small
    state-and-error monad. *)

Inductive outcome (A : Type) : Type :=
  | Ok (a : A)
  | TypeError.
Arguments Ok {A} a.
Arguments TypeError {A}.

Record Env : Type := mkEnv {
  storyboard : list AnimationStep;
  currentTime : Z
}.

Definition M (A : Type) : Type := Env -> outcome (A * Env).

Definition ret {A} (a : A) : M A := fun e => Ok (a, e).

Definition bind {A B} (c : M A) (k : A -> M B) : M B :=
  fun e => match c e with
           | Ok (a, e') => k a e'
           | TypeError => TypeError
           end.

Declare Scope monad_scope.
Delimit Scope monad_scope with monad.
Notation "v <- c ;; k" := (bind c (fun v => k))
  (at level 61, c at next level, right associativity) : monad_scope.
Notation "c ;; k" := (bind c (fun _ => k))
  (at level 61, right associativity) : monad_scope.
Local Open Scope monad_scope.

(** [storyboard.push(step)] *)
Definition push (step : AnimationStep) : M unit :=
  fun e => Ok (tt, mkEnv (storyboard e ++ [step]) (currentTime e)).

(** reading [currentTime] *)
Definition now : M Z := fun e => Ok (currentTime e, e).

(** [currentTime += d] *)
Definition advance (d : Z) : M unit :=
  fun e => Ok (tt, mkEnv (storyboard e) (currentTime e + d)).

(** [arr[i]] followed by a property access: a [TypeError] out of range. *)
Definition lookup {A} (arr : list A) (i : nat) : M A :=
  fun e => match nth_error arr i with
           | Some a => Ok (a, e)
           | None => TypeError
           end.

(** [arr.forEach((item, index) => f item index)] *)
Fixpoint forEachFrom {A} (f : A -> nat -> M unit) (arr : list A) (index : nat)
  : M unit :=
  match arr with
  | [] => ret tt
  | item :: rest => f item index ;; forEachFrom f rest (S index)
  end.

Definition forEach {A} (f : A -> nat -> M unit) (arr : list A) : M unit :=
  forEachFrom f arr 0.

Definition moveTime : Z := 8000.
Definition pauseTime : Z := 12000.
Definition glowTime : Z := 8000.
Definition tagTime : Z := 4000.
Definition beamTime : Z := 4000.

(** The centre of a bounding box, [x + width / 2] and [y + height / 2]. *)
Definition center (b : BoundingBox) : Position :=
  mkPosition (x b + width b / 2)%float (y b + height b / 2)%float.

Section Storyboard.

(** [Math.sin] of the host. *)
Variable Math_sin : float -> float.

(** ** [createCurvedPath]

    [steps] is a natural number: the loop [for (i = 0; i <= steps; i++)]
    then runs for [i = 0, 1, ..., steps], the counter and [steps] being the
    doubles [numOfNat i] and [numOfNat steps]. *)

Definition curvePoint (start end_ : Position) (steps : float) (i : float)
  : Position :=
  let t := (i / steps)%float in
  let px := (pos_x start + (pos_x end_ - pos_x start) * t)%float in
  let py := (pos_y start + (pos_y end_ - pos_y start) * t)%float in
  let curveOffset := (Math_sin (t * Math_PI) * 20)%float in
  mkPosition (px + curveOffset)%float (py + curveOffset)%float.

Definition createCurvedPath (start end_ : Position) (steps : nat)
  : list Position :=
  map (fun i => curvePoint start end_ (numOfNat steps) (numOfNat i))
      (seq 0 (S steps)).

(** ** [generateAnimationStoryboard] *)

(** The body of [pdfSections.forEach((section, index) => ...)]. *)
Definition visitSection (pdfSections : list PDFSection)
  (section : PDFSection) (index : nat) : M unit :=
  let centerX := (x (boundingBox section) + width (boundingBox section) / 2)%float in
  let centerY := (y (boundingBox section) + height (boundingBox section) / 2)%float in
  (* Move to section *)
  t <- now ;;
  push (mkStep t (mkPosition centerX centerY) None None move None) ;;
  advance moveTime ;;
  (* Pause and highlight *)
  t <- now ;;
  push (mkStep t (mkPosition centerX centerY)
          (Some (boundingBox section))
          (Some (getTagText (type_string (type section))))
          pause (Some (type section))) ;;
  advance pauseTime ;;
  (* Glow effect *)
  t <- now ;;
  push (mkStep t (mkPosition centerX centerY)
          (Some (boundingBox section))
          (Some (getTagText (type_string (type section))))
          glow (Some (type section))) ;;
  advance glowTime ;;
  (* Tag popout *)
  t <- now ;;
  push (mkStep t (mkPosition centerX centerY) None
          (Some (getTagText (type_string (type section))))
          tag_popout (Some (type section))) ;;
  advance tagTime ;;
  (* Beam transfer *)
  t <- now ;;
  push (mkStep t (mkPosition centerX centerY) None None
          beam_transfer (Some (type section))) ;;
  advance beamTime ;;
  (* Move to next section (if not the last one) *)
  if Z.of_nat index <? Z.of_nat (List.length pdfSections) - 1 then
    nextSection <- lookup pdfSections (index + 1) ;;
    let nextCenterX :=
      (x (boundingBox nextSection) + width (boundingBox nextSection) / 2)%float in
    let nextCenterY :=
      (y (boundingBox nextSection) + height (boundingBox nextSection) / 2)%float in
    let pathSteps :=
      createCurvedPath (mkPosition centerX centerY)
                       (mkPosition nextCenterX nextCenterY) 3 in
    forEach (fun point pathIndex =>
               t <- now ;;
               push (mkStep (t + Z.of_nat pathIndex * 100) point
                       None None move None))
            pathSteps ;;
    advance 300
  else ret tt.

Definition generateAnimationStoryboard_body (pdfSections : list PDFSection)
  (pdfDimensions : Dimensions) : M (list AnimationStep) :=
  (* Initial movement to first section *)
  match pdfSections with
  | firstSection :: _ =>
      t <- now ;;
      push (mkStep t
              (mkPosition
                 (x (boundingBox firstSection) + width (boundingBox firstSection) / 2)%float
                 (y (boundingBox firstSection) + height (boundingBox firstSection) / 2)%float)
              None None move None) ;;
      advance moveTime
  | [] => ret tt
  end ;;
  (* Process each section *)
  forEach (visitSection pdfSections) pdfSections ;;
  (* Completion step *)
  t <- now ;;
  push (mkStep t
          (mkPosition (dim_width pdfDimensions / 2)%float
                      (dim_height pdfDimensions / 2)%float)
          None None complete None) ;;
  fun e => Ok (storyboard e, e).

(** [const storyboard = []; let currentTime = 0; ...; return storyboard] *)
Definition generateAnimationStoryboard (pdfSections : list PDFSection)
  (pdfDimensions : Dimensions) : outcome (list AnimationStep) :=
  match generateAnimationStoryboard_body pdfSections pdfDimensions (mkEnv [] 0) with
  | Ok (sb, _) => Ok sb
  | TypeError => TypeError
  end.

(** ** The storyboard as a plain list

    What the loop appends, written without the state: the five steps of a
    section, the moves of a transition, and their concatenation.  Lemma
    [generateAnimationStoryboard_eq] proves the program computes exactly
    these lists. *)

(** The steps pushed for [section] when the cursor is [t]. *)
Definition sectionSteps (t : Z) (section : PDFSection) : list AnimationStep :=
  let c := center (boundingBox section) in
  let tag := getTagText (type_string (type section)) in
  [ mkStep t c None None move None;
    mkStep (t + 8000) c (Some (boundingBox section)) (Some tag) pause
           (Some (type section));
    mkStep (t + 20000) c (Some (boundingBox section)) (Some tag) glow
           (Some (type section));
    mkStep (t + 28000) c None (Some tag) tag_popout (Some (type section));
    mkStep (t + 32000) c None None beam_transfer (Some (type section)) ].

(** The moves pushed for the points [pts], the first having index [i]. *)
Fixpoint pathMoves (t : Z) (i : nat) (pts : list Position) : list AnimationStep :=
  match pts with
  | [] => []
  | p :: rest =>
      mkStep (t + Z.of_nat i * 100) p None None move None
        :: pathMoves t (S i) rest
  end.

(** The moves of the transition from [section] to [nextSection]. *)
Definition transitionSteps (t : Z) (section nextSection : PDFSection)
  : list AnimationStep :=
  pathMoves t 0
    (createCurvedPath (center (boundingBox section))
                      (center (boundingBox nextSection)) 3).

(** Everything the loop pushes for [sections], the cursor starting at [t]. *)
Fixpoint bodySteps (t : Z) (sections : list PDFSection) : list AnimationStep :=
  match sections with
  | [] => []
  | section :: rest =>
      sectionSteps t section ++
      match rest with
      | [] => []
      | nextSection :: _ =>
          transitionSteps (t + 36000) section nextSection
            ++ bodySteps (t + 36300) rest
      end
  end.

(** The cursor after the loop over [sections]. *)
Fixpoint endTime (t : Z) (sections : list PDFSection) : Z :=
  match sections with
  | [] => t
  | _ :: rest =>
      match rest with
      | [] => t + 36000
      | _ :: _ => endTime (t + 36300) rest
      end
  end.

(** The initial approach. *)
Definition initialSteps (sections : list PDFSection) : list AnimationStep :=
  match sections with
  | [] => []
  | firstSection :: _ =>
      [ mkStep 0 (center (boundingBox firstSection)) None None move None ]
  end.

(** The cursor when the loop starts. *)
Definition startTime (sections : list PDFSection) : Z :=
  match sections with
  | [] => 0
  | _ :: _ => 8000
  end.

(** The completion step. *)
Definition completeStep (t : Z) (pdfDimensions : Dimensions) : AnimationStep :=
  mkStep t
    (mkPosition (dim_width pdfDimensions / 2)%float
                (dim_height pdfDimensions / 2)%float)
    None None complete None.


(** ** Vocabulary for the ordering of a storyboard *)

(** [a] and [b] stand at a sub-path boundary of [sections]: [a] is the last
    of the four moves of the curved path from a section to the next one, and
    [b] is the move that opens the next section. *)
Definition subPathBoundary (sections : list PDFSection) (a b : AnimationStep)
  : Prop :=
  exists pre section nextSection post p,
    sections = pre ++ section :: nextSection :: post /\
    nth_error (createCurvedPath (center (boundingBox section))
                                (center (boundingBox nextSection)) 3) 3
      = Some p /\
    a = mkStep (timeline a) p None None move None /\
    b = mkStep (timeline b) (center (boundingBox nextSection))
               None None move None.

(** [b] may follow [a]: time does not go back, and stands still only at a
    sub-path boundary. *)
Definition inOrder (sections : list PDFSection) (a b : AnimationStep) : Prop :=
  timeline a <= timeline b /\
  (timeline a = timeline b -> subPathBoundary sections a b).

End Storyboard.

(** The number of steps of [sb] whose action is [a]. *)
Definition countAction (a : Action) (sb : list AnimationStep) : nat :=
  List.length (filter (fun s => Action_eqb (animation_action s) a) sb).

(** ** Strings

    A JavaScript string is a sequence of code units.  The texts of a resume
    are modelled by [string], one [ascii] per code unit below 256. *)

(** The WhiteSpace and LineTerminator code units below 256, which
    [String.prototype.trim] strips: TAB, LF, VT, FF, CR, SP and NBSP. *)
Definition isWhiteSpace (c : ascii) : bool :=
  let n := nat_of_ascii c in
  (Nat.eqb n 9 || Nat.eqb n 10 || Nat.eqb n 11 || Nat.eqb n 12
   || Nat.eqb n 13 || Nat.eqb n 32 || Nat.eqb n 160)%bool.

Fixpoint trimStart (s : string) : string :=
  match s with
  | EmptyString => EmptyString
  | String c rest => if isWhiteSpace c then trimStart rest else s
  end.

Fixpoint trimEnd (s : string) : string :=
  match s with
  | EmptyString => EmptyString
  | String c rest =>
      match trimEnd rest with
      | EmptyString => if isWhiteSpace c then EmptyString
                       else String c EmptyString
      | String c' rest' => String c (String c' rest')
      end
  end.

(** [s.trim()] *)
Definition trim (s : string) : string := trimEnd (trimStart s).

(** [arr.join(sep)] on an array of strings. *)
Fixpoint join (sep : string) (arr : list string) : string :=
  match arr with
  | [] => EmptyString
  | s :: rest =>
      match rest with
      | [] => s
      | _ :: _ => (s ++ sep ++ join sep rest)%string
      end
  end.

(** ** [extractPDFSections]

    [resumeData] is an object whose fields, when present, have the types of
    [ResumeData] in [lib/api.ts]; an absent field ([undefined] or [null]) is
    [None].  Only the fields the function reads are kept. *)

Record ExperienceEntry : Type := mkExperience {
  role : option string
}.

Record EducationEntry : Type := mkEducation {
  degree : option string
}.

Record ResumeData : Type := mkResumeData {
  name : option string;
  email : option string;
  phone : option string;
  skills : option (list string);
  experience : option (list ExperienceEntry);
  education : option (list EducationEntry)
}.

(** Truthiness of a string-or-absent value: absent and [''] are falsy. *)
Definition truthy (v : option string) : bool :=
  match v with
  | Some s => negb (String.eqb s EmptyString)
  | None => false
  end.

(** [v || ''], and the text [join] and a template literal put for [v]. *)
Definition orEmpty (v : option string) : string :=
  match v with
  | Some s => if truthy v then s else EmptyString
  | None => EmptyString
  end.

(** [arr && arr.length > 0] *)
Definition hasItems {A} (arr : option (list A)) : bool :=
  match arr with
  | Some l => (0 <? List.length l)%nat
  | None => false
  end.

(** The elements of an array that passed [hasItems]. *)
Definition items {A} (arr : option (list A)) : list A :=
  match arr with
  | Some l => l
  | None => []
  end.

(** [if (cond) { sections.push(region) }] *)
Definition pushIf (cond : bool) (region : PDFSection) : list PDFSection :=
  if cond then [region] else [].

Definition extractPDFSections (resumeData : ResumeData) : list PDFSection :=
  (* Name section *)
  pushIf (truthy (name resumeData))
    (mkSection name_t (orEmpty (name resumeData))
       (mkBox 100 70 200 30) 0.95)
  (* Contact section *)
  ++ pushIf (truthy (email resumeData) || truthy (phone resumeData))
       (mkSection contact_t
          (trim (orEmpty (email resumeData) ++ " "
                   ++ orEmpty (phone resumeData))%string)
          (mkBox 180 110 250 40) 0.9)
  (* Skills section *)
  ++ pushIf (hasItems (skills resumeData))
       (mkSection skills_t (join ", " (items (skills resumeData)))
          (mkBox 130 190 300 60) 0.85)
  (* Experience section *)
  ++ pushIf (hasItems (experience resumeData))
       (mkSection experience_t
          (join ", " (map (fun exp => orEmpty (role exp))
                          (items (experience resumeData))))
          (mkBox 160 290 350 100) 0.8)
  (* Education section *)
  ++ pushIf (hasItems (education resumeData))
       (mkSection education_t
          (join ", " (map (fun edu => orEmpty (degree edu))
                          (items (education resumeData))))
          (mkBox 200 440 280 80) 0.75).

(** The confidence the source writes for each kind. *)
Definition confidenceOf (k : SectionType) : float :=
  match k with
  | name_t => 0.95
  | contact_t => 0.9
  | skills_t => 0.85
  | experience_t => 0.8
  | education_t => 0.75
  end.

(** The data of a field group is there: what each [if] of
    [extractPDFSections] tests. *)
Definition groupPresent (d : ResumeData) (k : SectionType) : bool :=
  match k with
  | name_t => truthy (name d)
  | contact_t => truthy (email d) || truthy (phone d)
  | skills_t => hasItems (skills d)
  | experience_t => hasItems (experience d)
  | education_t => hasItems (education d)
  end.

(** The field groups, top to bottom. *)
Definition fieldOrder : list SectionType :=
  [name_t; contact_t; skills_t; experience_t; education_t].

(** The bounding box the source writes for each kind. *)
Definition boxOf (k : SectionType) : BoundingBox :=
  match k with
  | name_t => mkBox 100 70 200 30
  | contact_t => mkBox 180 110 250 40
  | skills_t => mkBox 130 190 300 60
  | experience_t => mkBox 160 290 350 100
  | education_t => mkBox 200 440 280 80
  end.

Definition SectionType_eqb (a b : SectionType) : bool :=
  match a, b with
  | name_t, name_t | contact_t, contact_t | skills_t, skills_t
  | experience_t, experience_t | education_t, education_t => true
  | _, _ => false
  end.


(** ** [getDefaultStoryboard] *)

Definition getDefaultStoryboard : list AnimationStep :=
  [ (* Initial movement to top-left *)
    mkStep 0 (mkPosition 50 50) None None move None;
    (* Name detection *)
    mkStep 500 (mkPosition 120 80) (Some (mkBox 100 70 200 30))
           (Some "Name Detected"%string) pause (Some name_t);
    mkStep 1000 (mkPosition 120 80) (Some (mkBox 100 70 200 30))
           (Some "Name Detected"%string) glow (Some name_t);
    mkStep 1500 (mkPosition 120 80) None
           (Some "Name Detected"%string) tag_popout (Some name_t);
    mkStep 2000 (mkPosition 120 80) None None beam_transfer (Some name_t);
    (* Contact info detection *)
    mkStep 2500 (mkPosition 200 120) (Some (mkBox 180 110 250 40))
           (Some "Contact Extracted"%string) pause (Some contact_t);
    mkStep 3000 (mkPosition 200 120) (Some (mkBox 180 110 250 40))
           (Some "Contact Extracted"%string) glow (Some contact_t);
    mkStep 3500 (mkPosition 200 120) None
           (Some "Contact Extracted"%string) tag_popout (Some contact_t);
    mkStep 4000 (mkPosition 200 120) None None beam_transfer (Some contact_t);
    (* Skills detection *)
    mkStep 4500 (mkPosition 150 200) (Some (mkBox 130 190 300 60))
           (Some "Skills Identified"%string) pause (Some skills_t);
    mkStep 5000 (mkPosition 150 200) (Some (mkBox 130 190 300 60))
           (Some "Skills Identified"%string) glow (Some skills_t);
    mkStep 5500 (mkPosition 150 200) None
           (Some "Skills Identified"%string) tag_popout (Some skills_t);
    mkStep 6000 (mkPosition 150 200) None None beam_transfer (Some skills_t);
    (* Experience detection *)
    mkStep 6500 (mkPosition 180 300) (Some (mkBox 160 290 350 100))
           (Some "Experience Analyzed"%string) pause (Some experience_t);
    mkStep 7000 (mkPosition 180 300) (Some (mkBox 160 290 350 100))
           (Some "Experience Analyzed"%string) glow (Some experience_t);
    mkStep 7500 (mkPosition 180 300) None
           (Some "Experience Analyzed"%string) tag_popout (Some experience_t);
    mkStep 8000 (mkPosition 180 300) None None beam_transfer
           (Some experience_t);
    (* Education detection *)
    mkStep 8500 (mkPosition 220 450) (Some (mkBox 200 440 280 80))
           (Some "Education Verified"%string) pause (Some education_t);
    mkStep 9000 (mkPosition 220 450) (Some (mkBox 200 440 280 80))
           (Some "Education Verified"%string) glow (Some education_t);
    mkStep 9500 (mkPosition 220 450) None
           (Some "Education Verified"%string) tag_popout (Some education_t);
    mkStep 10000 (mkPosition 220 450) None None beam_transfer
           (Some education_t);
    (* Completion *)
    mkStep 10500 (mkPosition 300 250) None None complete None ].

(** ** The storyboard of the scanner component

    [AnimatedPDFScanner] computes its storyboard in a [useMemo]: the
    regions of the optional prop [resumeData], the generated storyboard on
    an 800 x 600 canvas when there is a region, the default storyboard when
    there is none or when anything raised. *)

(** [try { body } catch (error) { handler }] *)
Definition tryCatch {A} (body : outcome A) (handler : A) : A :=
  match body with
  | Ok a => a
  | TypeError => handler
  end.

(** [extractPDFSections] on the prop: [resumeData.name] raises a
    [TypeError] when the prop is [undefined]. *)
Definition extractPDFSections_prop (resumeData : option ResumeData)
  : outcome (list PDFSection) :=
  match resumeData with
  | Some d => Ok (extractPDFSections d)
  | None => TypeError
  end.

Section Scanner.

Variable Math_sin : float -> float.

Definition animationStoryboard (resumeData : option ResumeData)
  : list AnimationStep :=
  tryCatch
    match extractPDFSections_prop resumeData with
    | Ok sections =>
        if (0 <? List.length sections)%nat then
          generateAnimationStoryboard Math_sin sections (mkDimensions 800 600)
        else
          Ok getDefaultStoryboard
    | TypeError => TypeError
    end
    getDefaultStoryboard.

End Scanner.

(** ** Vocabulary for the properties *)




(** The optional fields of a step go with its action. *)
Definition fieldDiscipline (s : AnimationStep) : Prop :=
  (highlight_area s <> None <->
   animation_action s = pause \/ animation_action s = glow) /\
  (tag_text s <> None <->
   animation_action s = pause \/ animation_action s = glow
   \/ animation_action s = tag_popout).

(** What the playback loop of the scanner relies on: it plays the steps in
    list order, each when its timeline is reached, and stops at the first
    completion step. *)
Definition playable (sb : list AnimationStep) : Prop :=
  Sorted (fun a b => timeline a <= timeline b) sb /\
  Forall (fun s => 0 <= timeline s) sb /\
  Forall fieldDiscipline sb /\
  exists init fin,
    sb = init ++ [fin] /\
    animation_action fin = complete /\
    Forall (fun s => animation_action s <> complete) init.

(** A step without its position. *)
Definition schedule (s : AnimationStep)
  : Z * Action * option BoundingBox * option string * option SectionType :=
  (timeline s, animation_action s, highlight_area s, tag_text s,
   section_type s).

(** The four steps of the default storyboard for the kind [k], the first
    at [t]: the bubble stands 20 right of and 10 below the corner of the
    box of the kind. *)
Definition defaultSteps (t : Z) (k : SectionType) : list AnimationStep :=
  let p := mkPosition (x (boxOf k) + 20)%float (y (boxOf k) + 10)%float in
  let tag := Some (getTagText (type_string k)) in
  [ mkStep t p (Some (boxOf k)) tag pause (Some k);
    mkStep (t + 500) p (Some (boxOf k)) tag glow (Some k);
    mkStep (t + 1000) p None tag tag_popout (Some k);
    mkStep (t + 1500) p None None beam_transfer (Some k) ].

(** A position lies on the canvas. *)
Definition onCanvas (dims : Dimensions) (p : Position) : bool :=
  (0 <=? pos_x p)%float && (pos_x p <=? dim_width dims)%float
  && (0 <=? pos_y p)%float && (pos_y p <=? dim_height dims)%float.

(** ** Sample inputs *)

Definition canvas : Dimensions := mkDimensions 800 600.

Definition nameRegion : PDFSection :=
  mkSection name_t "Ada Lovelace" (mkBox 100 70 200 30) 0.95.

Definition skillsRegion : PDFSection :=
  mkSection skills_t "Rocq, OCaml" (mkBox 130 190 300 60) 0.85.


(** A resume whose only skill is the empty string. *)
Definition blankSkillResume : ResumeData :=
  mkResumeData None None None (Some [EmptyString]) None None.

(** A resume whose e-mail address is a single space. *)
Definition blankMailResume : ResumeData :=
  mkResumeData None (Some " "%string) None None None None.

(** * Properties *)

(** ** Binary64 facts

    The operations on [float] are specified by their counterparts on
    [spec_float]; the facts below are read off those. *)

Lemma SFeqb_refl_finite (s : bool) (m : positive) (e : Z) :
  SFeqb (S754_finite s m e) (S754_finite s m e) = true.
Proof.
  unfold SFeqb, SFcompare.
  rewrite Z.compare_refl.
  change (Pos.compare_cont Eq m m) with (Pos.compare m m).
  rewrite Pos.compare_refl. destruct s; reflexivity.
Qed.

(** A finite number is a zero or has a mantissa and an exponent. *)
Lemma is_finite_SF (a : float) :
  is_finite a = true ->
  (exists s, Prim2SF a = S754_zero s) \/
  (exists s m e, Prim2SF a = S754_finite s m e).
Proof.
  unfold is_finite, is_nan, is_infinity.
  rewrite !eqb_spec, abs_spec.
  change (Prim2SF infinity) with (S754_infinity false).
  destruct (Prim2SF a) as [s|s| |s m e]; try destruct s; cbn; intros H;
    try discriminate; eauto 6.
Qed.

(** [0 / v] is [+0] for every positive [v], infinite or not. *)
Lemma zero_div_positive (v : float) :
  (0 <? v)%float = true -> (0 / v)%float = 0%float.
Proof.
  intros H. apply Prim2SF_inj. rewrite div_spec.
  rewrite ltb_spec in H.
  change (Prim2SF 0) with (S754_zero false) in *.
  destruct (Prim2SF v) as [s|s| |s m e]; try destruct s;
    cbn in H; try discriminate; reflexivity.
Qed.

(** The interpolation at [t = 0] with no offset gives back its start,
    up to the sign of a zero. *)
Lemma interpolate_at_zero (a d : float) :
  is_finite a = true -> is_finite d = true ->
  (a + d * 0 + 0 =? a)%float = true.
Proof.
  intros Ha Hd.
  rewrite eqb_spec, !add_spec, mul_spec.
  change (Prim2SF 0) with (S754_zero false).
  destruct (is_finite_SF a Ha) as [[sa ->] | (sa & ma & ea & ->)];
    destruct (is_finite_SF d Hd) as [[sd ->] | (sd & md & ed & ->)];
    cbn; try apply SFeqb_refl_finite;
    destruct sa, sd; reflexivity.
Qed.

(** A sum with a NaN is not equal to anything. *)
Lemma nan_add_neq (v w : float) : (nan + v =? w)%float = false.
Proof.
  rewrite eqb_spec, add_spec.
  change (Prim2SF nan) with S754_nan. reflexivity.
Qed.

(** An interpolation at a NaN parameter is a NaN, whatever the offset. *)
Lemma interpolate_at_nan (a d c : float) :
  is_nan (a + d * nan + c)%float = true.
Proof.
  unfold is_nan. rewrite eqb_spec, !add_spec, mul_spec.
  change (Prim2SF nan) with S754_nan.
  destruct (Prim2SF d) as [s|s| |s m e], (Prim2SF a) as [s'|s'| |s' m' e'];
    reflexivity.
Qed.

Lemma zero_neq_one : 0%float <> 1%float.
Proof.
  intros H. apply (f_equal is_zero) in H. vm_compute in H. discriminate.
Qed.

Section StoryboardProperties.

Variable Math_sin : float -> float.

(** ** The program computes the plain list *)

Lemma forEach_pathMoves (pts : list Position) (i : nat) (e : Env) :
  forEachFrom (fun point pathIndex =>
                 t <- now ;;
                 push (mkStep (t + Z.of_nat pathIndex * 100) point
                         None None move None))
              pts i e
  = Ok (tt, mkEnv (storyboard e ++ pathMoves (currentTime e) i pts)
                  (currentTime e)).
Proof.
  revert i e.
  induction pts as [|p pts IH]; intros i e.
  - cbn. rewrite app_nil_r. destruct e; reflexivity.
  - cbn [forEachFrom pathMoves]. unfold bind at 1.
    unfold bind at 1, now, push. rewrite IH. cbn.
    rewrite <- app_assoc. reflexivity.
Qed.

(** The visit of a section that has no successor: five steps, the cursor
    36 s later. *)
Lemma visitSection_last (all : list PDFSection) (section : PDFSection)
  (index : nat) (e : Env) :
  (List.length all <= S index)%nat ->
  visitSection Math_sin all section index e
  = Ok (tt, mkEnv (storyboard e ++ sectionSteps (currentTime e) section)
                  (currentTime e + 36000)).
Proof.
  intros Hlen. unfold visitSection.
  replace (Z.of_nat index <? Z.of_nat (List.length all) - 1) with false
    by (symmetry; apply Z.ltb_ge; lia).
  unfold bind, now, push, advance, ret, sectionSteps, center,
    moveTime, pauseTime, glowTime, tagTime, beamTime.
  cbn. rewrite <- !app_assoc, <- !Z.add_assoc. reflexivity.
Qed.

(** The visit of a section that has a successor: five steps, the four
    moves of the curved path, the cursor 36.3 s later. *)
Lemma visitSection_inner (all : list PDFSection) (section next : PDFSection)
  (index : nat) (e : Env) :
  nth_error all (S index) = Some next ->
  visitSection Math_sin all section index e
  = Ok (tt, mkEnv (storyboard e ++ sectionSteps (currentTime e) section
                     ++ transitionSteps Math_sin (currentTime e + 36000)
                          section next)
                  (currentTime e + 36300)).
Proof.
  intros Hnext.
  assert (Hlt : (S index < List.length all)%nat)
    by (apply nth_error_Some; congruence).
  unfold visitSection.
  replace (Z.of_nat index <? Z.of_nat (List.length all) - 1) with true
    by (symmetry; apply Z.ltb_lt; lia).
  unfold bind at 1. unfold now at 1.
  repeat (unfold bind at 1; unfold now at 1 || unfold push at 1
                                         || unfold advance at 1).
  unfold lookup. replace (index + 1)%nat with (S index) by lia.
  rewrite Hnext. unfold forEach. rewrite forEach_pathMoves.
  unfold transitionSteps, sectionSteps, center,
    moveTime, pauseTime, glowTime, tagTime, beamTime.
  cbn [storyboard currentTime].
  rewrite <- !app_assoc, <- !Z.add_assoc. reflexivity.
Qed.

(** The loop over the sections [rest] that follow [pre]. *)
Lemma forEach_bodySteps (rest pre : list PDFSection) (e : Env) :
  forEachFrom (visitSection Math_sin (pre ++ rest)) rest (List.length pre) e
  = Ok (tt, mkEnv (storyboard e ++ bodySteps Math_sin (currentTime e) rest)
                  (endTime (currentTime e) rest)).
Proof.
  revert pre e.
  induction rest as [|section rest IH]; intros pre e.
  - cbn. rewrite app_nil_r. destruct e; reflexivity.
  - cbn [forEachFrom]. unfold bind at 1.
    destruct rest as [|next rest'].
    + rewrite visitSection_last
        by (rewrite length_app; cbn; lia).
      reflexivity.
    + rewrite (visitSection_inner _ _ next)
        by (rewrite nth_error_app2 by lia;
            replace (S (List.length pre) - List.length pre)%nat with 1%nat by lia;
            reflexivity).
      replace (pre ++ section :: next :: rest')
        with ((pre ++ [section]) ++ next :: rest')
        by (rewrite <- app_assoc; reflexivity).
      replace (S (List.length pre)) with (List.length (pre ++ [section]))
        by (rewrite length_app; cbn; lia).
      rewrite IH. cbn [storyboard currentTime].
      change (bodySteps Math_sin (currentTime e) (section :: next :: rest'))
        with (sectionSteps (currentTime e) section
                ++ transitionSteps Math_sin (currentTime e + 36000) section next
                ++ bodySteps Math_sin (currentTime e + 36300) (next :: rest')).
      change (endTime (currentTime e) (section :: next :: rest'))
        with (endTime (currentTime e + 36300) (next :: rest')).
      rewrite <- !app_assoc. reflexivity.
Qed.

(** The state in which the body of [generateAnimationStoryboard] ends. *)
Lemma generateAnimationStoryboard_body_eq (sections : list PDFSection)
  (dims : Dimensions) :
  let final := endTime (startTime sections) sections in
  let sb := initialSteps sections
              ++ bodySteps Math_sin (startTime sections) sections
              ++ [completeStep final dims] in
  generateAnimationStoryboard_body Math_sin sections dims (mkEnv [] 0)
  = Ok (sb, mkEnv sb final).
Proof.
  intros final sb. subst final sb.
  unfold generateAnimationStoryboard_body.
  unfold bind at 1.
  assert (Hinit :
    match sections with
    | firstSection :: _ =>
        t <- now ;;
        push (mkStep t
                (mkPosition
                   (x (boundingBox firstSection)
                    + width (boundingBox firstSection) / 2)%float
                   (y (boundingBox firstSection)
                    + height (boundingBox firstSection) / 2)%float)
                None None move None) ;;
        advance moveTime
    | [] => ret tt
    end (mkEnv [] 0)
    = Ok (tt, mkEnv (initialSteps sections) (startTime sections))).
  { destruct sections; reflexivity. }
  rewrite Hinit. unfold bind at 1. unfold forEach.
  rewrite (forEach_bodySteps sections []).
  cbn [storyboard currentTime].
  unfold bind, now, push, completeStep. cbn [storyboard currentTime].
  rewrite <- app_assoc. reflexivity.
Qed.

(** [generateAnimationStoryboard] returns, and returns the plain list. *)
Lemma generateAnimationStoryboard_eq (sections : list PDFSection)
  (dims : Dimensions) :
  generateAnimationStoryboard Math_sin sections dims
  = Ok (initialSteps sections
          ++ bodySteps Math_sin (startTime sections) sections
          ++ [completeStep (endTime (startTime sections) sections) dims]).
Proof.
  unfold generateAnimationStoryboard.
  rewrite generateAnimationStoryboard_body_eq. reflexivity.
Qed.

(** ** Unfolding the plain list *)

Lemma bodySteps_two (t : Z) (section next : PDFSection)
  (rest : list PDFSection) :
  bodySteps Math_sin t (section :: next :: rest)
  = sectionSteps t section
      ++ transitionSteps Math_sin (t + 36000) section next
      ++ bodySteps Math_sin (t + 36300) (next :: rest).
Proof. reflexivity. Qed.

Lemma bodySteps_head (t : Z) (section : PDFSection) (rest : list PDFSection) :
  exists tl,
    bodySteps Math_sin t (section :: rest)
    = mkStep t (center (boundingBox section)) None None move None :: tl.
Proof. eexists. reflexivity. Qed.

Lemma transitionSteps_four (t : Z) (section next : PDFSection) :
  exists p0 p1 p2 p3,
    createCurvedPath Math_sin (center (boundingBox section))
                     (center (boundingBox next)) 3 = [p0; p1; p2; p3] /\
    transitionSteps Math_sin t section next
    = [ mkStep t p0 None None move None;
        mkStep (t + 100) p1 None None move None;
        mkStep (t + 200) p2 None None move None;
        mkStep (t + 300) p3 None None move None ].
Proof.
  do 4 eexists. split; [reflexivity|].
  unfold transitionSteps, createCurvedPath. cbn [seq map pathMoves].
  change (Z.of_nat 0 * 100) with 0. rewrite Z.add_0_r. reflexivity.
Qed.

(** A property of every section step and of every plain move holds of
    all the steps of the loop. *)
Lemma bodySteps_Forall (P : AnimationStep -> Prop) :
  (forall t section, Forall P (sectionSteps t section)) ->
  (forall t p, P (mkStep t p None None move None)) ->
  forall sections t, Forall P (bodySteps Math_sin t sections).
Proof.
  intros Hsec Hmove.
  assert (Hpath : forall pts t i, Forall P (pathMoves t i pts)).
  { induction pts as [|p pts IH]; intros t i; cbn; constructor; auto. }
  induction sections as [|section rest IH]; intros t.
  - constructor.
  - destruct rest as [|next rest'].
    + cbn [bodySteps]. rewrite app_nil_r. apply Hsec.
    + rewrite bodySteps_two. rewrite !Forall_app. repeat split.
      * apply Hsec.
      * apply Hpath.
      * apply IH.
Qed.

Lemma countAction_app (a : Action) (l1 l2 : list AnimationStep) :
  countAction a (l1 ++ l2) = (countAction a l1 + countAction a l2)%nat.
Proof. unfold countAction. rewrite filter_app, length_app. reflexivity. Qed.

Lemma countAction_pathMoves (a : Action) (pts : list Position) (t : Z) (i : nat) :
  a <> move -> countAction a (pathMoves t i pts) = 0%nat.
Proof.
  intros Ha. revert i.
  induction pts as [|p pts IH]; intros i; [reflexivity|].
  unfold countAction in *. cbn [pathMoves filter animation_action].
  destruct a; try contradiction; cbn; apply IH.
Qed.

(** Each of the four section actions occurs once per section in the loop. *)
Lemma countAction_bodySteps (a : Action) (sections : list PDFSection) (t : Z) :
  a = pause \/ a = glow \/ a = tag_popout \/ a = beam_transfer ->
  countAction a (bodySteps Math_sin t sections) = List.length sections.
Proof.
  intros Ha. revert t.
  induction sections as [|section rest IH]; intros t; [reflexivity|].
  destruct rest as [|next rest'].
  - cbn [bodySteps]. rewrite app_nil_r.
    destruct Ha as [-> | [-> | [-> | ->]]]; reflexivity.
  - rewrite bodySteps_two, !countAction_app, IH.
    unfold transitionSteps. rewrite countAction_pathMoves
      by (destruct Ha as [-> | [-> | [-> | ->]]]; discriminate).
    destruct Ha as [-> | [-> | [-> | ->]]]; reflexivity.
Qed.

Lemma endTime_two (t : Z) (section next : PDFSection) (rest : list PDFSection) :
  endTime t (section :: next :: rest) = endTime (t + 36300) (next :: rest).
Proof. reflexivity. Qed.

(** The cursor after the loop, in closed form. *)
Lemma endTime_closed (sections : list PDFSection) (t : Z) :
  sections <> [] ->
  endTime t sections = t + 36300 * Z.of_nat (List.length sections) - 300.
Proof.
  revert t. induction sections as [|section rest IH]; intros t Hne.
  - contradiction.
  - destruct rest as [|next rest'].
    + cbn. lia.
    + rewrite endTime_two, IH by discriminate.
      cbn [List.length]. lia.
Qed.

Lemma Sorted_weaken {A} (R R' : A -> A -> Prop) (l : list A) :
  (forall a b, R a b -> R' a b) -> Sorted R l -> Sorted R' l.
Proof.
  intros Himp Hs. induction Hs as [|a l Hs IH Hhd]; constructor; auto.
  destruct Hhd; constructor; auto.
Qed.

Lemma subPathBoundary_cons (section : PDFSection) (sections : list PDFSection)
  (a b : AnimationStep) :
  subPathBoundary Math_sin sections a b ->
  subPathBoundary Math_sin (section :: sections) a b.
Proof.
  intros (pre & s & s' & post & p & -> & Hp & Ha & Hb).
  exists (section :: pre), s, s', post, p. repeat split; assumption.
Qed.

Lemma inOrder_cons (section : PDFSection) (sections : list PDFSection)
  (a b : AnimationStep) :
  inOrder Math_sin sections a b -> inOrder Math_sin (section :: sections) a b.
Proof.
  intros [Hle Htie]. split; [assumption|].
  intros Heq. apply subPathBoundary_cons. auto.
Qed.

(** Two steps whose timelines differ in the right direction are in order. *)
Lemma inOrder_lt (sections : list PDFSection) (a b : AnimationStep) :
  timeline a < timeline b -> inOrder Math_sin sections a b.
Proof. intros Hlt. split; [lia|]. intros Heq. lia. Qed.

(** The loop and the completion step are in order. *)
Lemma bodySteps_inOrder (dims : Dimensions) (sections : list PDFSection) (t : Z) :
  sections <> [] ->
  Sorted (inOrder Math_sin sections)
         (bodySteps Math_sin t sections
            ++ [completeStep (endTime t sections) dims]).
Proof.
  revert t. induction sections as [|section rest IH]; intros t Hne.
  - contradiction.
  - destruct rest as [|next rest'].
    + cbn.
      do 6 (apply Sorted_cons;
            [|first [apply HdRel_nil
                    |apply HdRel_cons; apply inOrder_lt; cbn; lia]]).
      apply Sorted_nil.
    + rewrite bodySteps_two, endTime_two.
      destruct (transitionSteps_four (t + 36000) section next)
        as (p0 & p1 & p2 & p3 & Hpath & ->).
      specialize (IH (t + 36300) ltac:(discriminate)).
      apply (Sorted_weaken _ _ _ (inOrder_cons section (next :: rest'))) in IH.
      destruct (bodySteps_head (t + 36300) next rest') as [tl Hhead].
      rewrite Hhead in IH |- *.
      unfold sectionSteps. cbn [app] in IH |- *.
      do 9 (apply Sorted_cons;
            [|try (apply HdRel_cons; apply inOrder_lt; cbn; lia)]);
        [exact IH|].
      apply HdRel_cons. split; [cbn; lia|]. intros _.
      exists [], section, next, rest', p3.
      rewrite Hpath. repeat split.
Qed.

(** The loop over [pre ++ section :: rest]: nine steps for every section of
    [pre], then the loop over [section :: rest], 36.3 s later per section. *)
Lemma bodySteps_skip (pre : list PDFSection) (section : PDFSection)
  (rest : list PDFSection) (t : Z) :
  exists before,
    List.length before = (9 * List.length pre)%nat /\
    bodySteps Math_sin t (pre ++ section :: rest)
    = before ++ bodySteps Math_sin
                  (t + 36300 * Z.of_nat (List.length pre)) (section :: rest).
Proof.
  revert t. induction pre as [|a pre IH]; intros t.
  - exists []. split; [reflexivity|].
    cbn [List.length app Z.of_nat]. rewrite Z.mul_0_r, Z.add_0_r. reflexivity.
  - destruct (IH (t + 36300)) as (before & Hlen & Heq).
    assert (Hnext : exists next X, pre ++ section :: rest = next :: X)
      by (destruct pre; cbn; eauto).
    destruct Hnext as (next & X & HX).
    exists (sectionSteps t a ++ transitionSteps Math_sin (t + 36000) a next
              ++ before).
    split.
    + destruct (transitionSteps_four (t + 36000) a next)
        as (p0 & p1 & p2 & p3 & _ & ->).
      rewrite !length_app, Hlen. cbn [List.length sectionSteps]. lia.
    + cbn [app]. rewrite HX, bodySteps_two, <- HX, Heq.
      replace (t + 36300 * Z.of_nat (List.length (a :: pre)))
        with (t + 36300 + 36300 * Z.of_nat (List.length pre))
        by (cbn [List.length]; lia).
      rewrite <- !app_assoc. reflexivity.
Qed.

(** ** The plain list is in order, disciplined and ends with the only
    completion step *)

Lemma storyboard_inOrder (sections : list PDFSection) (dims : Dimensions) :
  Sorted (inOrder Math_sin sections)
         (initialSteps sections
            ++ bodySteps Math_sin (startTime sections) sections
            ++ [completeStep (endTime (startTime sections) sections) dims]).
Proof.
  destruct sections as [|section rest].
  - cbn. repeat constructor.
  - pose proof (bodySteps_inOrder dims (section :: rest) 8000
                  ltac:(discriminate)) as Hs.
    destruct (bodySteps_head 8000 section rest) as [tl Hhead].
    cbn [initialSteps startTime app]. rewrite Hhead in Hs |- *.
    apply Sorted_cons; [exact Hs|].
    apply HdRel_cons. apply inOrder_lt. cbn. lia.
Qed.

Lemma storyboard_fieldDiscipline (sections : list PDFSection)
  (dims : Dimensions) :
  Forall fieldDiscipline
         (initialSteps sections
            ++ bodySteps Math_sin (startTime sections) sections
            ++ [completeStep (endTime (startTime sections) sections) dims]).
Proof.
  assert (Hmove : forall t p, fieldDiscipline (mkStep t p None None move None)).
  { intros t p. unfold fieldDiscipline. cbn. split; split; intros H;
      solve [congruence | intuition discriminate]. }
  rewrite !Forall_app. repeat split.
  - destruct sections; constructor; [apply Hmove|constructor].
  - apply bodySteps_Forall; [|exact Hmove].
    intros t section. unfold sectionSteps, fieldDiscipline.
    repeat (constructor;
            [cbn; split; split; intros H;
             solve [congruence | intuition discriminate | tauto]|]).
    constructor.
  - constructor; [|constructor]. unfold fieldDiscipline. cbn.
    split; split; intros H; solve [congruence | intuition discriminate].
Qed.

Lemma storyboard_single_complete (sections : list PDFSection)
  (dims : Dimensions) :
  exists init fin,
    initialSteps sections
      ++ bodySteps Math_sin (startTime sections) sections
      ++ [completeStep (endTime (startTime sections) sections) dims]
    = init ++ [fin] /\
    animation_action fin = complete /\
    Forall (fun s => animation_action s <> complete) init.
Proof.
  exists (initialSteps sections
            ++ bodySteps Math_sin (startTime sections) sections),
         (completeStep (endTime (startTime sections) sections) dims).
  split; [rewrite <- app_assoc; reflexivity|].
  split; [reflexivity|].
  apply Forall_app. split.
  - destruct sections; repeat constructor; discriminate.
  - apply bodySteps_Forall.
    + intros t section. repeat constructor; discriminate.
    + intros t p. discriminate.
Qed.

(** * The storyboard of [generateAnimationStoryboard] *)

(** C1 (as the code has it).  On a single region the storyboard has seven
    steps, not six: the initial approach and the region's own move both go
    to the centre of the region, at 0 and at 8000; then come pause, glow,
    tag_popout and beam_transfer of the region and the completion step.  The
    pause and the glow carry the region's bounding box and the tag of its
    kind, and the timelines increase strictly. *)
Theorem single_region_seven_steps (section : PDFSection) (dims : Dimensions) :
  let c := center (boundingBox section) in
  let box := Some (boundingBox section) in
  let tag := Some (getTagText (type_string (type section))) in
  let kind := Some (type section) in
  exists sb,
    generateAnimationStoryboard Math_sin [section] dims = Ok sb /\
    sb = [ mkStep 0 c None None move None;
           mkStep 8000 c None None move None;
           mkStep 16000 c box tag pause kind;
           mkStep 28000 c box tag glow kind;
           mkStep 36000 c None tag tag_popout kind;
           mkStep 40000 c None None beam_transfer kind;
           mkStep 44000 (mkPosition (dim_width dims / 2) (dim_height dims / 2))
                  None None complete None ] /\
    Sorted Z.lt (map timeline sb).
Proof.
  intros c box tag kind. eexists. split; [|split].
  - rewrite generateAnimationStoryboard_eq. reflexivity.
  - reflexivity.
  - cbn. repeat (constructor; try lia).
Qed.

(** C2.  The storyboard is never empty, its last step is a completion step
    and no step before it is one, and each of pause, glow, tag_popout and
    beam_transfer occurs exactly once per region (for every number of
    regions, two or more included). *)
Theorem storyboard_shape (sections : list PDFSection) (dims : Dimensions) :
  exists sb,
    generateAnimationStoryboard Math_sin sections dims = Ok sb /\
    sb <> [] /\
    (exists init fin,
        sb = init ++ [fin] /\
        animation_action fin = complete /\
        Forall (fun s => animation_action s <> complete) init) /\
    countAction pause sb = List.length sections /\
    countAction glow sb = List.length sections /\
    countAction tag_popout sb = List.length sections /\
    countAction beam_transfer sb = List.length sections.
Proof.
  eexists. split; [apply generateAnimationStoryboard_eq|].
  split; [|split].
  - intros H. apply (f_equal (@List.length _)) in H.
    rewrite !length_app in H. cbn in H. lia.
  - apply storyboard_single_complete.
  - rewrite !countAction_app, !countAction_bodySteps by tauto.
    destruct sections; cbn; lia.
Qed.

(** C5.  Along the storyboard the timeline never decreases, and two
    consecutive steps have the same timeline only at a sub-path boundary:
    the first is the last move of a curved path and the second the move that
    opens the next region. *)
Theorem timeline_monotone (sections : list PDFSection) (dims : Dimensions) :
  exists sb,
    generateAnimationStoryboard Math_sin sections dims = Ok sb /\
    Sorted (inOrder Math_sin sections) sb.
Proof.
  eexists. split; [apply generateAnimationStoryboard_eq|].
  apply storyboard_inOrder.
Qed.

(** C7.  A step carries a highlight area exactly when it is a pause or a
    glow, and a tag text exactly when it is a pause, a glow or a
    tag_popout. *)
Theorem highlight_and_tag_discipline (sections : list PDFSection)
  (dims : Dimensions) :
  exists sb,
    generateAnimationStoryboard Math_sin sections dims = Ok sb /\
    Forall (fun s =>
              (highlight_area s <> None <->
               animation_action s = pause \/ animation_action s = glow) /\
              (tag_text s <> None <->
               animation_action s = pause \/ animation_action s = glow
               \/ animation_action s = tag_popout)) sb.
Proof.
  eexists. split; [apply generateAnimationStoryboard_eq|].
  exact (storyboard_fieldDiscipline sections dims).
Qed.

(** C8.  The body ends in a state whose storyboard ends with a completion
    step placed at the centre of the canvas, [(width / 2, height / 2)], and
    scheduled at the cursor of that state; this storyboard is what
    [generateAnimationStoryboard] returns. *)
Theorem complete_at_canvas_center (sections : list PDFSection)
  (dims : Dimensions) :
  exists init e,
    generateAnimationStoryboard_body Math_sin sections dims (mkEnv [] 0)
      = Ok (storyboard e, e) /\
    generateAnimationStoryboard Math_sin sections dims = Ok (storyboard e) /\
    storyboard e
      = init ++ [ mkStep (currentTime e)
                    (mkPosition (dim_width dims / 2) (dim_height dims / 2))
                    None None complete None ].
Proof.
  exists (initialSteps sections
            ++ bodySteps Math_sin (startTime sections) sections).
  eexists (mkEnv _ _). split; [|split].
  - apply generateAnimationStoryboard_body_eq.
  - apply generateAnimationStoryboard_eq.
  - cbn [storyboard currentTime]. rewrite <- app_assoc. reflexivity.
Qed.

(** C9.  On the empty list [generateAnimationStoryboard] returns, without a
    [TypeError], the one-step storyboard whose step is a completion step at
    time 0 at the centre of the canvas. *)
Theorem empty_input_single_complete (dims : Dimensions) :
  generateAnimationStoryboard Math_sin [] dims
  = Ok [ mkStep 0 (mkPosition (dim_width dims / 2) (dim_height dims / 2))
           None None complete None ].
Proof.
  unfold generateAnimationStoryboard, generateAnimationStoryboard_body.
  unfold forEach, forEachFrom, bind, ret, now, push. reflexivity.
Qed.

(** C10.  Every transition, from a section to the one after it, lays down
    exactly four moves: the points of the curved path in order, the first at
    the cursor [T] that the beam transfer left (4 s after it), the others
    100 ms apart.  The next region's move follows at once at [T + 300], the
    timeline of the fourth path move. *)
Theorem transition_four_moves (pre : list PDFSection)
  (section nextSection : PDFSection) (post : list PDFSection)
  (dims : Dimensions) :
  let T := 44000 + 36300 * Z.of_nat (List.length pre) in
  let c := center (boundingBox section) in
  let c' := center (boundingBox nextSection) in
  exists before after p0 p1 p2 p3,
    createCurvedPath Math_sin c c' 3 = [p0; p1; p2; p3] /\
    List.length before = (5 + 9 * List.length pre)%nat /\
    generateAnimationStoryboard Math_sin
      (pre ++ section :: nextSection :: post) dims
    = Ok (before
            ++ [ mkStep (T - 4000) c None None beam_transfer
                        (Some (type section));
                 mkStep T p0 None None move None;
                 mkStep (T + 100) p1 None None move None;
                 mkStep (T + 200) p2 None None move None;
                 mkStep (T + 300) p3 None None move None;
                 mkStep (T + 300) c' None None move None ]
            ++ after).
Proof.
  intros T c c'.
  set (all := pre ++ section :: nextSection :: post).
  assert (Hstart : startTime all = 8000)
    by (subst all; destruct pre; reflexivity).
  assert (Hinit : exists m, initialSteps all = [m])
    by (subst all; destruct pre; cbn; eauto).
  destruct Hinit as [m Hinit].
  destruct (bodySteps_skip pre section (nextSection :: post) 8000)
    as (skipped & Hlen & Hskip).
  destruct (transitionSteps_four
              (8000 + 36300 * Z.of_nat (List.length pre) + 36000)
              section nextSection)
    as (p0 & p1 & p2 & p3 & Hpath & Htrans).
  destruct (bodySteps_head
              (8000 + 36300 * Z.of_nat (List.length pre) + 36300)
              nextSection post) as [tl Hhead].
  set (t := 8000 + 36300 * Z.of_nat (List.length pre)) in *.
  exists (m :: skipped
            ++ [ mkStep t c None None move None;
                 mkStep (t + 8000) c (Some (boundingBox section))
                   (Some (getTagText (type_string (type section)))) pause
                   (Some (type section));
                 mkStep (t + 20000) c (Some (boundingBox section))
                   (Some (getTagText (type_string (type section)))) glow
                   (Some (type section));
                 mkStep (t + 28000) c None
                   (Some (getTagText (type_string (type section))))
                   tag_popout (Some (type section)) ]).
  exists (tl ++ [completeStep (endTime (startTime all) all) dims]).
  exists p0, p1, p2, p3.
  split; [exact Hpath|]. split.
  - cbn [List.length]. rewrite length_app, Hlen. cbn [List.length]. lia.
  - rewrite generateAnimationStoryboard_eq. fold all.
    rewrite Hinit, Hstart. unfold all at 1.
    rewrite Hskip. fold t. rewrite bodySteps_two, Htrans, Hhead.
    unfold sectionSteps. fold c c'.
    replace (T - 4000) with (t + 32000) by (subst T t; lia).
    replace T with (t + 36000) by (subst T t; lia).
    replace (t + 36000 + 300) with (t + 36300) by lia.
    cbn [app]. f_equal. f_equal.
    rewrite <- !app_assoc. reflexivity.
Qed.

(** * The curved path of [createCurvedPath] *)

Lemma createCurvedPath_nth (start end_ : Position) (steps i : nat) :
  (i <= steps)%nat ->
  nth_error (createCurvedPath Math_sin start end_ steps) i
  = Some (curvePoint Math_sin start end_ (numOfNat steps) (numOfNat i)).
Proof.
  intros Hi. unfold createCurvedPath.
  rewrite nth_error_map.
  rewrite (nth_error_nth' (seq 0 (S steps)) 0%nat)
    by (rewrite length_seq; lia).
  rewrite seq_nth by lia. reflexivity.
Qed.

(** C3 (as the code has it).  The path has [steps + 1] points.  Point [i]
    is the interpolation [start + (end - start) * t] at [t = i / steps] with
    one scalar, [Math.sin(t * Math.PI) * 20], added to both coordinates.
    When the sine of [+0] is [+0] (as ECMAScript requires), [steps] is
    positive, [start] is finite and [end - start] does not overflow, the
    first point is numerically equal to [start].  Nothing of the kind is
    stated for the last point: in binary64 it differs from [end]. *)
Theorem createCurvedPath_points (start end_ : Position) (steps : nat) :
  List.length (createCurvedPath Math_sin start end_ steps) = S steps /\
  (forall i, (i <= steps)%nat ->
     let t := (numOfNat i / numOfNat steps)%float in
     let curveOffset := (Math_sin (t * Math_PI) * 20)%float in
     nth_error (createCurvedPath Math_sin start end_ steps) i
     = Some (mkPosition
               (pos_x start + (pos_x end_ - pos_x start) * t + curveOffset)
               (pos_y start + (pos_y end_ - pos_y start) * t + curveOffset))) /\
  (Math_sin 0%float = 0%float ->
   (0 <? numOfNat steps)%float = true ->
   is_finite (pos_x start) = true ->
   is_finite (pos_y start) = true ->
   is_finite (pos_x end_ - pos_x start) = true ->
   is_finite (pos_y end_ - pos_y start) = true ->
   exists p,
     nth_error (createCurvedPath Math_sin start end_ steps) 0 = Some p /\
     (pos_x p =? pos_x start)%float = true /\
     (pos_y p =? pos_y start)%float = true).
Proof.
  split; [|split].
  - unfold createCurvedPath. rewrite length_map, length_seq. reflexivity.
  - intros i Hi t curveOffset. rewrite createCurvedPath_nth by exact Hi.
    reflexivity.
  - intros Hsin Hsteps Hsx Hsy Hdx Hdy.
    eexists. split; [apply createCurvedPath_nth; lia|].
    unfold curvePoint. cbn [pos_x pos_y numOfNat].
    rewrite (zero_div_positive _ Hsteps).
    change (0 * Math_PI)%float with 0%float. rewrite Hsin.
    change (0 * 20)%float with 0%float.
    split; apply interpolate_at_zero; assumption.
Qed.

End StoryboardProperties.

(** * The regions of [extractPDFSections] *)

(** C4 (as the code has it).  The kinds of the emitted regions are the
    field groups whose data is there, in the order name, contact, skills,
    experience, education, each once; a group whose data is absent or empty
    emits nothing.  A name region never has an empty text; the other
    regions may ([extractPDFSections_blank_text]). *)
Theorem extractPDFSections_order (d : ResumeData) :
  map type (extractPDFSections d) = filter (groupPresent d) fieldOrder /\
  Forall (fun r => type r = name_t -> text r <> EmptyString)
         (extractPDFSections d).
Proof.
  unfold extractPDFSections, pushIf, fieldOrder, groupPresent.
  cbn [filter].
  destruct (truthy (name d)) eqn:Hname;
    destruct (truthy (email d) || truthy (phone d))%bool;
    destruct (hasItems (skills d));
    destruct (hasItems (experience d));
    destruct (hasItems (education d));
    (split; [reflexivity|]);
    cbn [app]; repeat (constructor; try (cbn; discriminate)).
  all: cbn; intros _; destruct (name d) as [s|]; cbn in *;
    try discriminate;
    destruct (String.eqb_spec s EmptyString); cbn in *;
    [discriminate|assumption].
Qed.

(** C6.  The confidence of an emitted region is the constant of its kind;
    the five constants lie between 0 and 1 and go down strictly from name
    to education. *)
Theorem confidence_fixed_per_kind (d : ResumeData) :
  Forall (fun r => confidence r = confidenceOf (type r))
         (extractPDFSections d) /\
  (forall k, (0 <=? confidenceOf k)%float = true /\
             (confidenceOf k <=? 1)%float = true) /\
  (confidenceOf contact_t <? confidenceOf name_t)%float = true /\
  (confidenceOf skills_t <? confidenceOf contact_t)%float = true /\
  (confidenceOf experience_t <? confidenceOf skills_t)%float = true /\
  (confidenceOf education_t <? confidenceOf experience_t)%float = true.
Proof.
  split; [|split; [intros k; destruct k; split; reflexivity
                  |repeat split; reflexivity]].
  unfold extractPDFSections, pushIf.
  repeat match goal with
         | |- context [if ?c then _ else _] => destruct c
         end; cbn [app]; repeat constructor.
Qed.

(** * Runs of the model *)

(** C1, a run: a single region gives seven steps, with
    two moves in front. *)
Lemma single_region_two_leading_moves :
  exists sb,
    generateAnimationStoryboard sin_approx [nameRegion] canvas = Ok sb /\
    List.length sb = 7%nat /\
    map animation_action sb
    = [move; move; pause; glow; tag_popout; beam_transfer; complete] /\
    map timeline sb = [0; 8000; 16000; 28000; 36000; 40000; 44000] /\
    map bubble_position (firstn 2 sb)
    = [mkPosition 200 85; mkPosition 200 85].
Proof.
  eexists. split; [vm_compute; reflexivity|].
  repeat split; vm_compute; reflexivity.
Qed.

(** C3, three runs.  With the reference sine the path from
    (100, 100) to (1, 1) ends beside (1, 1), the sine of [Math.PI] not being
    zero.  Whatever the sine, the path from (1e16, 0) to (1, 0) does not end
    at (1, 0), and the path from (1.7e308, 0) to (-1.7e308, 0) does not
    start at its start, [end - start] being infinite. *)
Lemma createCurvedPath_endpoints_off :
  (exists p,
      nth_error (createCurvedPath sin_approx (mkPosition 100 100)
                                  (mkPosition 1 1) 3) 3 = Some p /\
      (pos_x p =? 1)%float = false /\ (pos_y p =? 1)%float = false) /\
  (exists start end_,
      is_finite (pos_x start) = true /\ is_finite (pos_y start) = true /\
      is_finite (pos_x end_) = true /\ is_finite (pos_y end_) = true /\
      forall Math_sin : float -> float,
        nth_error (createCurvedPath Math_sin start end_ 3) 3 <> Some end_) /\
  (exists start end_,
      is_finite (pos_x start) = true /\ is_finite (pos_y start) = true /\
      is_finite (pos_x end_) = true /\ is_finite (pos_y end_) = true /\
      forall Math_sin : float -> float,
      exists p,
        nth_error (createCurvedPath Math_sin start end_ 3) 0 = Some p /\
        (pos_x p =? pos_x start)%float = false).
Proof.
  split; [|split].
  - eexists. split; [vm_compute; reflexivity|].
    split; vm_compute; reflexivity.
  - exists (mkPosition 1e16 0), (mkPosition 1 0).
    do 4 (split; [reflexivity|]).
    intros Math_sin H. vm_compute in H.
    injection H as Hx Hy. rewrite Hy in Hx.
    exact (zero_neq_one Hx).
  - exists (mkPosition 1.7e308 0), (mkPosition (-1.7e308) 0).
    do 4 (split; [reflexivity|]).
    intros Math_sin. eexists. split; [reflexivity|].
    unfold curvePoint. cbn [pos_x pos_y].
    change (1.7e308 + (-1.7e308 - 1.7e308) * (numOfNat 0 / numOfNat 3))%float
      with nan.
    apply nan_add_neq.
Qed.

(** C3, a run of the theorem: the path between the centres of the name and
    the contact regions starts at the first. *)
Lemma createCurvedPath_points_run :
  exists p,
    nth_error (createCurvedPath sin_approx (mkPosition 200 85)
                                (mkPosition 305 130) 3) 0 = Some p /\
    (pos_x p =? 200)%float = true /\ (pos_y p =? 85)%float = true.
Proof.
  apply (proj2 (proj2 (createCurvedPath_points sin_approx
                         (mkPosition 200 85) (mkPosition 305 130) 3)));
    reflexivity.
Defined.

(** C4, two runs: a region with an empty text. *)
Lemma extractPDFSections_blank_text :
  extractPDFSections blankSkillResume
  = [mkSection skills_t EmptyString (mkBox 130 190 300 60) 0.85] /\
  extractPDFSections blankMailResume
  = [mkSection contact_t EmptyString (mkBox 180 110 250 40) 0.9].
Proof. split; reflexivity. Qed.

(** * More on the storyboard *)

Section StoryboardInvariants.

Variable Math_sin : float -> float.

Lemma length_bodySteps (sections : list PDFSection) (t : Z) :
  sections <> [] ->
  List.length (bodySteps Math_sin t sections)
  = (9 * List.length sections - 4)%nat.
Proof.
  revert t. induction sections as [|section rest IH]; intros t Hne.
  - contradiction.
  - destruct rest as [|next rest'].
    + reflexivity.
    + rewrite bodySteps_two, !length_app, IH by discriminate.
      destruct (transitionSteps_four Math_sin (t + 36000) section next)
        as (p0 & p1 & p2 & p3 & _ & ->).
      cbn [List.length sectionSteps]. lia.
Qed.

Lemma length_storyboard (sections : list PDFSection) (dims : Dimensions) :
  List.length (initialSteps sections
                 ++ bodySteps Math_sin (startTime sections) sections
                 ++ [completeStep (endTime (startTime sections) sections) dims])
  = match sections with
    | [] => 1%nat
    | _ :: _ => (9 * List.length sections - 2)%nat
    end.
Proof.
  destruct sections as [|section rest]; [reflexivity|].
  rewrite !length_app, length_bodySteps by discriminate.
  cbn [initialSteps List.length]. lia.
Qed.

Lemma countAction_pathMoves_move (pts : list Position) (t : Z) (i : nat) :
  countAction move (pathMoves t i pts) = List.length pts.
Proof.
  revert i. induction pts as [|p pts IH]; intros i; [reflexivity|].
  unfold countAction in *. cbn. rewrite IH. reflexivity.
Qed.

Lemma countAction_move_bodySteps (sections : list PDFSection) (t : Z) :
  sections <> [] ->
  countAction move (bodySteps Math_sin t sections)
  = (5 * List.length sections - 4)%nat.
Proof.
  revert t. induction sections as [|section rest IH]; intros t Hne.
  - contradiction.
  - destruct rest as [|next rest'].
    + reflexivity.
    + rewrite bodySteps_two, !countAction_app, IH by discriminate.
      unfold transitionSteps. rewrite countAction_pathMoves_move.
      unfold createCurvedPath. rewrite length_map, length_seq.
      cbn [List.length]. unfold countAction. cbn. lia.
Qed.

(** The steps of the loop lie between its first cursor and its last. *)
Lemma timeline_bodySteps (sections : list PDFSection) (t : Z) :
  sections <> [] ->
  Forall (fun s =>
            t <= timeline s
            < t + 36300 * Z.of_nat (List.length sections) - 300)
         (bodySteps Math_sin t sections).
Proof.
  revert t. induction sections as [|section rest IH]; intros t Hne.
  - contradiction.
  - destruct rest as [|next rest'].
    + cbn. repeat (constructor; [cbn; lia|]). constructor.
    + rewrite bodySteps_two.
      destruct (transitionSteps_four Math_sin (t + 36000) section next)
        as (p0 & p1 & p2 & p3 & _ & ->).
      assert (Hn : 36300 * Z.of_nat (List.length (section :: next :: rest'))
                   = 36300 + 36300 * Z.of_nat (List.length (next :: rest')))
        by (cbn [List.length]; lia).
      rewrite !Forall_app. repeat split.
      * unfold sectionSteps.
        repeat (constructor; [cbn [timeline List.length] in *; lia|]).
        constructor.
      * repeat (constructor; [cbn [timeline List.length] in *; lia|]).
        constructor.
      * specialize (IH (t + 36300) ltac:(discriminate)).
        eapply Forall_impl; [|exact IH]. cbn beta. intros s Hs. lia.
Qed.

(** The timeline of every step, and that of the completion step. *)
Lemma timeline_storyboard (sections : list PDFSection) (dims : Dimensions) :
  let final := match sections with
               | [] => 0
               | _ :: _ => 36300 * Z.of_nat (List.length sections) + 7700
               end in
  endTime (startTime sections) sections = final /\
  Forall (fun s => 0 <= timeline s <= final)
         (initialSteps sections
            ++ bodySteps Math_sin (startTime sections) sections
            ++ [completeStep final dims]).
Proof.
  destruct sections as [|section rest]; cbn zeta.
  - split; [reflexivity|]. repeat constructor; cbn; lia.
  - split; [rewrite endTime_closed by discriminate; cbn [startTime]; lia|].
    rewrite !Forall_app. repeat split.
    + repeat constructor; cbn [timeline List.length]; lia.
    + pose proof (timeline_bodySteps (section :: rest) 8000
                    ltac:(discriminate)) as H.
      eapply Forall_impl; [|exact H]. cbn beta. intros s Hs.
      change (startTime (section :: rest)) with 8000. lia.
    + repeat constructor; cbn [timeline completeStep List.length]; lia.
Qed.

(** X1.  Every timeline of the storyboard lies between 0 and the timeline
    of the completion step, which is 0 when there is no region and
    [36300 * N + 7700] for [N >= 1] regions. *)
Theorem timeline_bounds (sections : list PDFSection) (dims : Dimensions) :
  let final := match sections with
               | [] => 0
               | _ :: _ => 36300 * Z.of_nat (List.length sections) + 7700
               end in
  exists init,
    generateAnimationStoryboard Math_sin sections dims
    = Ok (init ++ [completeStep final dims]) /\
    Forall (fun s => 0 <= timeline s <= final)
           (init ++ [completeStep final dims]).
Proof.
  intros final.
  destruct (timeline_storyboard sections dims) as [Hend Hall].
  fold final in Hend, Hall.
  exists (initialSteps sections
            ++ bodySteps Math_sin (startTime sections) sections).
  rewrite generateAnimationStoryboard_eq, Hend, <- app_assoc.
  split; [reflexivity|exact Hall].
Qed.

(** X2.  With fewer than 2^32 regions, the length of a JavaScript array,
    every timeline is an integer below 2^53: the binary64 additions that
    compute it are exact. *)
Theorem timeline_exact (sections : list PDFSection) (dims : Dimensions) :
  Z.of_nat (List.length sections) < 2 ^ 32 ->
  exists sb,
    generateAnimationStoryboard Math_sin sections dims = Ok sb /\
    Forall (fun s => 0 <= timeline s < 2 ^ 53) sb.
Proof.
  intros Hlen.
  destruct (timeline_storyboard sections dims) as [Hend Hall].
  eexists. split; [apply generateAnimationStoryboard_eq|].
  rewrite Hend. eapply Forall_impl; [|exact Hall].
  cbn beta. intros s Hs. destruct sections; cbn [List.length] in *; lia.
Qed.

(** X3.  The storyboard has one step for no region and [9 * N - 2] steps
    for [N >= 1] regions, [5 * N - 3] of them moves. *)
Theorem storyboard_length (sections : list PDFSection) (dims : Dimensions) :
  exists sb,
    generateAnimationStoryboard Math_sin sections dims = Ok sb /\
    List.length sb = match sections with
                     | [] => 1%nat
                     | _ :: _ => (9 * List.length sections - 2)%nat
                     end /\
    countAction move sb = match sections with
                          | [] => 0%nat
                          | _ :: _ => (5 * List.length sections - 3)%nat
                          end.
Proof.
  eexists. split; [apply generateAnimationStoryboard_eq|].
  split; [apply length_storyboard|].
  destruct sections as [|section rest]; [reflexivity|].
  rewrite !countAction_app, countAction_move_bodySteps by discriminate.
  cbn [initialSteps List.length]. unfold countAction. cbn. lia.
Qed.

(** X4.  A storyboard for at least one region opens with two moves to the
    centre of the first region, at 0 and at 8000. *)
Theorem leading_moves (section : PDFSection) (rest : list PDFSection)
  (dims : Dimensions) :
  exists tl,
    generateAnimationStoryboard Math_sin (section :: rest) dims
    = Ok (mkStep 0 (center (boundingBox section)) None None move None
            :: mkStep 8000 (center (boundingBox section)) None None move None
            :: tl).
Proof.
  destruct (bodySteps_head Math_sin 8000 section rest) as [tl Hhead].
  eexists. rewrite generateAnimationStoryboard_eq.
  cbn [initialSteps startTime app]. rewrite Hhead. reflexivity.
Qed.

(** A property of the section steps of every section of the list and of
    every plain move holds of all the steps of the loop. *)
Lemma bodySteps_Forall_In (P : AnimationStep -> Prop)
  (sections : list PDFSection) :
  (forall t section, In section sections ->
                     Forall P (sectionSteps t section)) ->
  (forall t p, P (mkStep t p None None move None)) ->
  forall t, Forall P (bodySteps Math_sin t sections).
Proof.
  intros Hsec Hmove.
  assert (Hpath : forall pts t i, Forall P (pathMoves t i pts)).
  { induction pts as [|p pts IH]; intros t i; cbn; constructor; auto. }
  induction sections as [|section rest IH]; intros t.
  - constructor.
  - destruct rest as [|next rest'].
    + cbn [bodySteps]. rewrite app_nil_r. apply Hsec. left. reflexivity.
    + rewrite bodySteps_two. rewrite !Forall_app. repeat split.
      * apply Hsec. left. reflexivity.
      * apply Hpath.
      * apply IH. intros t' s Hin. apply Hsec. right. exact Hin.
Qed.

Lemma getTagText_type_string (k : SectionType) :
  getTagText (type_string k) <> "Section Detected"%string.
Proof. destruct k; discriminate. Qed.

(** X5.  A step that names a kind belongs to a region of the input of
    that kind: it stands at the centre of the region's bounding box, a
    highlight area on it is that bounding box, and a tag on it is the tag
    of the kind, never the fallback tag ['Section Detected'].  The steps
    that name no kind are the moves and the completion step. *)
Theorem section_steps_from_regions (sections : list PDFSection)
  (dims : Dimensions) :
  exists sb,
    generateAnimationStoryboard Math_sin sections dims = Ok sb /\
    Forall (fun s =>
              match section_type s with
              | Some k =>
                  (exists r, In r sections /\ type r = k /\
                     bubble_position s = center (boundingBox r) /\
                     (highlight_area s = None \/
                      highlight_area s = Some (boundingBox r))) /\
                  (tag_text s = None \/
                   tag_text s = Some (getTagText (type_string k))) /\
                  tag_text s <> Some "Section Detected"%string /\
                  animation_action s <> move /\
                  animation_action s <> complete
              | None =>
                  animation_action s = move \/ animation_action s = complete
              end) sb.
Proof.
  eexists. split; [apply generateAnimationStoryboard_eq|].
  rewrite !Forall_app. repeat split.
  - destruct sections; repeat constructor.
  - apply bodySteps_Forall_In.
    + intros t section Hin. unfold sectionSteps.
      constructor; [left; reflexivity|].
      repeat (constructor;
              [cbn; repeat split;
               try discriminate; try (left; reflexivity);
               try (right; reflexivity);
               try (exists section; repeat split; auto);
               try (intros H; injection H as H;
                    exact (getTagText_type_string _ H))|]).
      constructor.
    + intros t p. left. reflexivity.
  - constructor; [right; reflexivity|constructor].
Qed.

(** The loop reads the kind and the bounding box of a region, nothing
    else. *)
Lemma bodySteps_ext (l1 l2 : list PDFSection) (t : Z) :
  map type l1 = map type l2 ->
  map boundingBox l1 = map boundingBox l2 ->
  bodySteps Math_sin t l1 = bodySteps Math_sin t l2 /\
  endTime t l1 = endTime t l2.
Proof.
  revert l2 t. induction l1 as [|a l1 IH]; intros l2 t Hty Hbox.
  - destruct l2; [split; reflexivity|discriminate].
  - destruct l2 as [|b l2]; [discriminate|].
    cbn [map] in Hty, Hbox.
    injection Hty as Hta Hty. injection Hbox as Hba Hbox.
    destruct (IH l2 (t + 36300) Hty Hbox) as [IHb IHe].
    assert (Hsec : sectionSteps t a = sectionSteps t b)
      by (unfold sectionSteps; rewrite Hta, Hba; reflexivity).
    destruct l1 as [|a' l1'], l2 as [|b' l2']; try discriminate.
    + cbn [bodySteps endTime]. rewrite Hsec. split; reflexivity.
    + rewrite !bodySteps_two, !endTime_two, Hsec, IHb, IHe.
      cbn [map] in Hbox. injection Hbox as Hba' _.
      unfold transitionSteps. rewrite Hba, Hba'. split; reflexivity.
Qed.

(** X6.  The storyboard does not depend on the text or the confidence of
    the regions: inputs with the same kinds and bounding boxes give the
    same storyboard. *)
Theorem storyboard_ignores_text_and_confidence
  (sections1 sections2 : list PDFSection) (dims : Dimensions) :
  map type sections1 = map type sections2 ->
  map boundingBox sections1 = map boundingBox sections2 ->
  generateAnimationStoryboard Math_sin sections1 dims
  = generateAnimationStoryboard Math_sin sections2 dims.
Proof.
  intros Hty Hbox. rewrite !generateAnimationStoryboard_eq.
  assert (Hstart : startTime sections1 = startTime sections2)
    by (destruct sections1, sections2; try discriminate; reflexivity).
  assert (Hinit : initialSteps sections1 = initialSteps sections2).
  { destruct sections1, sections2; try discriminate; [reflexivity|].
    cbn in Hbox |- *. injection Hbox as -> _. reflexivity. }
  destruct (bodySteps_ext sections1 sections2 (startTime sections1) Hty Hbox)
    as [Hb He].
  rewrite Hinit, Hb, He, Hstart. reflexivity.
Qed.

(** X7.  The canvas size decides the position of the completion step and
    nothing else. *)
Theorem canvas_only_places_completion (sections : list PDFSection) :
  exists init final,
    forall dims,
      generateAnimationStoryboard Math_sin sections dims
      = Ok (init ++ [ mkStep final
                        (mkPosition (dim_width dims / 2)
                                    (dim_height dims / 2))
                        None None complete None ]).
Proof.
  exists (initialSteps sections
            ++ bodySteps Math_sin (startTime sections) sections),
         (endTime (startTime sections) sections).
  intros dims. rewrite generateAnimationStoryboard_eq, <- app_assoc.
  reflexivity.
Qed.

(** X8.  A visit never raises and only appends: whatever the index and the
    state, it leaves the steps pushed so far in place, adds nine steps and
    36300 ms when a section follows the index, five steps and 36000 ms when
    none does.  The guard [index < pdfSections.length - 1] keeps the read of
    [pdfSections[index + 1]] inside the array. *)
Theorem visitSection_appends (all : list PDFSection) (section : PDFSection)
  (index : nat) (e : Env) :
  exists added,
    visitSection Math_sin all section index e
    = Ok (tt, mkEnv (storyboard e ++ added)
                    (currentTime e
                     + if (S index <? List.length all)%nat
                       then 36300 else 36000)) /\
    List.length added
    = if (S index <? List.length all)%nat then 9%nat else 5%nat.
Proof.
  destruct (Nat.ltb_spec (S index) (List.length all)) as [Hlt | Hge].
  - destruct (nth_error all (S index)) as [next|] eqn:Hnext;
      [|apply nth_error_None in Hnext; lia].
    exists (sectionSteps (currentTime e) section
              ++ transitionSteps Math_sin (currentTime e + 36000)
                   section next).
    split; [apply visitSection_inner; exact Hnext|].
    destruct (transitionSteps_four Math_sin (currentTime e + 36000)
                section next) as (p0 & p1 & p2 & p3 & _ & ->).
    reflexivity.
  - exists (sectionSteps (currentTime e) section).
    split; [apply visitSection_last; exact Hge|reflexivity].
Qed.

(** X9.  With [steps = 0] the path is a single point whose coordinates are
    NaN, [t] being [0 / 0]. *)
Theorem createCurvedPath_zero_steps (start end_ : Position) :
  exists p,
    createCurvedPath Math_sin start end_ 0 = [p] /\
    is_nan (pos_x p) = true /\ is_nan (pos_y p) = true.
Proof.
  eexists. split; [reflexivity|].
  unfold curvePoint. cbn [pos_x pos_y numOfNat].
  change (0 / 0)%float with nan.
  split; apply interpolate_at_nan.
Qed.

(** The loop over a list with one more section at the end. *)
Lemma bodySteps_snoc (sections : list PDFSection) (section : PDFSection)
  (t : Z) :
  sections <> [] ->
  exists added,
    bodySteps Math_sin t (sections ++ [section])
    = bodySteps Math_sin t sections ++ added /\
    List.length added = 9%nat /\
    endTime t (sections ++ [section]) = endTime t sections + 36300.
Proof.
  revert t. induction sections as [|a rest IH]; intros t Hne.
  - contradiction.
  - destruct rest as [|next rest'].
    + exists (transitionSteps Math_sin (t + 36000) a section
                ++ sectionSteps (t + 36300) section).
      cbn [app]. rewrite bodySteps_two. cbn [bodySteps endTime].
      rewrite !app_nil_r.
      destruct (transitionSteps_four Math_sin (t + 36000) a section)
        as (p0 & p1 & p2 & p3 & _ & ->).
      repeat split. lia.
    + destruct (IH (t + 36300) ltac:(discriminate))
        as (added & Heq & Hlen & Hend).
      exists added. cbn [app] in *.
      rewrite !bodySteps_two, !endTime_two, Heq, Hend, <- !app_assoc.
      repeat split. exact Hlen.
Qed.

(** X23.  A region added at the end of the list only adds steps: the
    storyboard keeps all its steps but the completion step, and gets six
    more steps before the new completion step when the list was empty,
    nine when it was not. *)
Theorem storyboard_extends (sections : list PDFSection)
  (section : PDFSection) (dims : Dimensions) :
  exists init fin added fin',
    generateAnimationStoryboard Math_sin sections dims
    = Ok (init ++ [fin]) /\
    generateAnimationStoryboard Math_sin (sections ++ [section]) dims
    = Ok (init ++ added ++ [fin']) /\
    animation_action fin = complete /\
    animation_action fin' = complete /\
    List.length added = match sections with
                        | [] => 6%nat
                        | _ :: _ => 9%nat
                        end.
Proof.
  rewrite !generateAnimationStoryboard_eq.
  destruct sections as [|a rest].
  - exists [], (completeStep 0 dims).
    exists (initialSteps [section] ++ bodySteps Math_sin 8000 [section]),
           (completeStep 44000 dims).
    repeat split.
  - destruct (bodySteps_snoc (a :: rest) section 8000 ltac:(discriminate))
      as (added & Heq & Hlen & Hend).
    exists (initialSteps (a :: rest) ++ bodySteps Math_sin 8000 (a :: rest)),
           (completeStep (endTime 8000 (a :: rest)) dims),
           added,
           (completeStep (endTime 8000 (a :: rest) + 36300) dims).
    cbn [app] in *. cbn [initialSteps startTime].
    rewrite Heq, Hend, <- !app_assoc. repeat split. exact Hlen.
Qed.

End StoryboardInvariants.

(** * [getTagText] *)

(** X10.  [getTagText] returns one of six tags, and the fallback tag
    ['Section Detected'] exactly on the strings that are not a kind. *)
Theorem getTagText_cases (sectionType : string) :
  In (getTagText sectionType)
     [ "Name Detected"; "Contact Extracted"; "Skills Identified";
       "Experience Analyzed"; "Education Verified";
       "Section Detected" ]%string /\
  (getTagText sectionType = "Section Detected"%string <->
   forall k, sectionType <> type_string k).
Proof.
  unfold getTagText.
  destruct (String.eqb_spec sectionType "name") as [->|Hn];
    [split; [cbn; tauto|split; [discriminate|]];
     intros H; exfalso; exact (H name_t eq_refl)|].
  destruct (String.eqb_spec sectionType "contact") as [->|Hc];
    [split; [cbn; tauto|split; [discriminate|]];
     intros H; exfalso; exact (H contact_t eq_refl)|].
  destruct (String.eqb_spec sectionType "skills") as [->|Hs];
    [split; [cbn; tauto|split; [discriminate|]];
     intros H; exfalso; exact (H skills_t eq_refl)|].
  destruct (String.eqb_spec sectionType "experience") as [->|Hx];
    [split; [cbn; tauto|split; [discriminate|]];
     intros H; exfalso; exact (H experience_t eq_refl)|].
  destruct (String.eqb_spec sectionType "education") as [->|He];
    [split; [cbn; tauto|split; [discriminate|]];
     intros H; exfalso; exact (H education_t eq_refl)|].
  split; [cbn; tauto|]. split; [|reflexivity].
  intros _ k. destruct k; assumption.
Qed.

(** X11.  The tags tell the kinds apart: two kinds have the same tag
    exactly when they are the same kind. *)
Theorem getTagText_distinguishes_kinds (a b : SectionType) :
  String.eqb (getTagText (type_string a)) (getTagText (type_string b))
  = SectionType_eqb a b.
Proof. destruct a, b; reflexivity. Qed.

(** * More on [extractPDFSections] *)

Lemma Forall_pushIf (P : PDFSection -> Prop) (cond : bool)
  (region : PDFSection) :
  (cond = true -> P region) -> Forall P (pushIf cond region).
Proof.
  intros H. destruct cond; cbn; [|constructor].
  constructor; [auto|constructor].
Qed.

Lemma extractPDFSections_types (d : ResumeData) :
  map type (extractPDFSections d) = filter (groupPresent d) fieldOrder.
Proof.
  unfold extractPDFSections, pushIf, fieldOrder, groupPresent.
  cbn [filter].
  destruct (truthy (name d));
    destruct (truthy (email d) || truthy (phone d))%bool;
    destruct (hasItems (skills d));
    destruct (hasItems (experience d));
    destruct (hasItems (education d)); reflexivity.
Qed.

(** X12.  Every region has the bounding box of its kind, the boxes come
    top to bottom, and the centre of each lies on the 800 x 600 canvas the
    scanner passes to the generator. *)
Theorem extractPDFSections_layout (d : ResumeData) :
  Forall (fun r => boundingBox r = boxOf (type r) /\
                   onCanvas (mkDimensions 800 600) (center (boundingBox r))
                   = true)
         (extractPDFSections d) /\
  StronglySorted
    (fun a b => (y (boundingBox a) + height (boundingBox a)
                 <=? y (boundingBox b))%float = true)
    (extractPDFSections d).
Proof.
  unfold extractPDFSections, pushIf.
  destruct (truthy (name d));
    destruct (truthy (email d) || truthy (phone d))%bool;
    destruct (hasItems (skills d));
    destruct (hasItems (experience d));
    destruct (hasItems (education d));
    cbn [app]; split; repeat constructor.
Qed.

(** X13.  There are as many regions as field groups with data, five at
    most and no kind twice, and none exactly when no group has data. *)
Theorem extractPDFSections_count (d : ResumeData) :
  List.length (extractPDFSections d)
  = List.length (filter (groupPresent d) fieldOrder) /\
  (List.length (extractPDFSections d) <= 5)%nat /\
  NoDup (map type (extractPDFSections d)) /\
  (extractPDFSections d = [] <-> forall k, groupPresent d k = false).
Proof.
  pose proof (extractPDFSections_types d) as Hty.
  assert (Hlen : List.length (extractPDFSections d)
                 = List.length (filter (groupPresent d) fieldOrder))
    by (rewrite <- Hty, length_map; reflexivity).
  split; [exact Hlen|]. split; [|split].
  - rewrite Hlen. etransitivity; [apply filter_length_le|]. cbn. lia.
  - rewrite Hty. apply NoDup_filter. unfold fieldOrder.
    repeat (constructor; [cbn; intuition discriminate|]). constructor.
  - split.
    + intros Hnil k. rewrite Hnil in Hty. cbn [map] in Hty.
      assert (Hin : ~ In k (filter (groupPresent d) fieldOrder))
        by (rewrite <- Hty; intros []).
      rewrite filter_In in Hin.
      destruct (groupPresent d k); [|reflexivity].
      exfalso. apply Hin. split; [|reflexivity].
      destruct k; cbn; tauto.
    + intros Hnone. apply length_zero_iff_nil. rewrite Hlen.
      unfold fieldOrder. cbn [filter]. rewrite !Hnone. reflexivity.
Qed.

(** ** Empty texts *)








(** ** The contact text *)




(** * [getDefaultStoryboard] *)

(** X16.  The default storyboard is a move to (50, 50), then the five
    kinds in field order, four steps each, 500 ms from step to step, with
    the bounding boxes [extractPDFSections] writes and the tags of
    [getTagText], then the completion step at 10500. *)
Theorem getDefaultStoryboard_by_kind :
  getDefaultStoryboard
  = [mkStep 0 (mkPosition 50 50) None None move None]
      ++ flat_map (fun ik => defaultSteps (500 + 2000 * Z.of_nat (fst ik))
                                          (snd ik))
                  (combine (seq 0 5) fieldOrder)
      ++ [mkStep 10500 (mkPosition 300 250) None None complete None].
Proof. vm_compute. reflexivity. Qed.

Lemma getDefaultStoryboard_fieldDiscipline :
  Forall fieldDiscipline getDefaultStoryboard.
Proof.
  unfold getDefaultStoryboard, fieldDiscipline.
  repeat (constructor;
          [cbn; split; split; intros H;
           solve [congruence | intuition discriminate | tauto]|]).
  constructor.
Qed.

Lemma getDefaultStoryboard_playable_aux : playable getDefaultStoryboard.
Proof.
  split; [|split; [|split]].
  - unfold getDefaultStoryboard.
    repeat (apply Sorted_cons;
            [|first [apply HdRel_nil | apply HdRel_cons; cbn; lia]]).
    apply Sorted_nil.
  - unfold getDefaultStoryboard. repeat (constructor; [cbn; lia|]).
    constructor.
  - exact getDefaultStoryboard_fieldDiscipline.
  - exists (removelast getDefaultStoryboard),
           (mkStep 10500 (mkPosition 300 250) None None complete None).
    split; [reflexivity|]. split; [reflexivity|].
    cbn. repeat (constructor; [discriminate|]). constructor.
Qed.

(** X17.  The default storyboard is playable, and its timelines increase
    strictly: unlike a generated storyboard it has no two steps at the same
    time. *)
Theorem getDefaultStoryboard_playable :
  playable getDefaultStoryboard /\
  Sorted Z.lt (map timeline getDefaultStoryboard).
Proof.
  split; [exact getDefaultStoryboard_playable_aux|].
  cbn. repeat (constructor; try lia).
Qed.

(** * The storyboard of the scanner *)

Section ScannerProperties.

Variable Math_sin : float -> float.

Lemma inOrder_le (sections : list PDFSection) (a b : AnimationStep) :
  inOrder Math_sin sections a b -> timeline a <= timeline b.
Proof. intros [H _]. exact H. Qed.

(** What [generateAnimationStoryboard] returns is playable. *)
Lemma storyboard_playable (sections : list PDFSection) (dims : Dimensions) :
  playable (initialSteps sections
              ++ bodySteps Math_sin (startTime sections) sections
              ++ [completeStep (endTime (startTime sections) sections) dims]).
Proof.
  split; [|split; [|split]].
  - eapply Sorted_weaken; [|apply storyboard_inOrder].
    apply inOrder_le.
  - destruct (timeline_storyboard Math_sin sections dims) as [Hend Hall].
    rewrite Hend. eapply Forall_impl; [|exact Hall].
    cbn beta. intros s Hs. lia.
  - apply storyboard_fieldDiscipline.
  - apply storyboard_single_complete.
Qed.

Lemma default_not_generated_aux (sections : list PDFSection)
  (dims : Dimensions) :
  List.length
    (initialSteps sections
       ++ bodySteps Math_sin (startTime sections) sections
       ++ [completeStep (endTime (startTime sections) sections) dims])
  <> List.length getDefaultStoryboard /\
  initialSteps sections
    ++ bodySteps Math_sin (startTime sections) sections
    ++ [completeStep (endTime (startTime sections) sections) dims]
  <> getDefaultStoryboard.
Proof.
  assert (Hlen : List.length
                   (initialSteps sections
                      ++ bodySteps Math_sin (startTime sections) sections
                      ++ [completeStep (endTime (startTime sections) sections)
                            dims])
                 <> List.length getDefaultStoryboard).
  { rewrite length_storyboard. change (List.length getDefaultStoryboard)
      with 22%nat. destruct sections; cbn [List.length]; lia. }
  split; [exact Hlen|]. intros H. apply Hlen. rewrite H. reflexivity.
Qed.

(** X18.  A generated storyboard is never the default one: their lengths
    differ, 22 being neither 1 nor of the form [9 * N - 2]. *)
Theorem default_not_generated (sections : list PDFSection)
  (dims : Dimensions) :
  exists sb,
    generateAnimationStoryboard Math_sin sections dims = Ok sb /\
    List.length sb <> List.length getDefaultStoryboard /\
    sb <> getDefaultStoryboard.
Proof.
  eexists. split; [apply generateAnimationStoryboard_eq|].
  apply default_not_generated_aux.
Qed.

Lemma hasRegions_groupPresent (d : ResumeData) :
  (0 <? List.length (extractPDFSections d))%nat
  = existsb (groupPresent d) fieldOrder.
Proof.
  rewrite <- (length_map type), extractPDFSections_types.
  unfold fieldOrder. cbn [filter existsb].
  destruct (groupPresent d name_t), (groupPresent d contact_t),
    (groupPresent d skills_t), (groupPresent d experience_t),
    (groupPresent d education_t); reflexivity.
Qed.

(** The three ways of the [useMemo]. *)
Lemma animationStoryboard_eq (resumeData : option ResumeData) :
  animationStoryboard Math_sin resumeData
  = match resumeData with
    | None => getDefaultStoryboard
    | Some d =>
        if existsb (groupPresent d) fieldOrder then
          let sections := extractPDFSections d in
          initialSteps sections
            ++ bodySteps Math_sin (startTime sections) sections
            ++ [completeStep (endTime (startTime sections) sections)
                  (mkDimensions 800 600)]
        else getDefaultStoryboard
    end.
Proof.
  destruct resumeData as [d|]; [|reflexivity].
  unfold animationStoryboard, extractPDFSections_prop.
  rewrite hasRegions_groupPresent.
  destruct (existsb (groupPresent d) fieldOrder); [|reflexivity].
  rewrite generateAnimationStoryboard_eq. reflexivity.
Qed.


Lemma extractPDFSections_on_canvas (d : ResumeData) :
  Forall (fun r => onCanvas (mkDimensions 800 600) (center (boundingBox r))
                   = true)
         (extractPDFSections d).
Proof.
  unfold extractPDFSections. rewrite !Forall_app.
  repeat split; apply Forall_pushIf; intros _; reflexivity.
Qed.

Lemma length_extractPDFSections (d : ResumeData) :
  (List.length (extractPDFSections d) <= 5)%nat.
Proof.
  rewrite <- (length_map type), extractPDFSections_types.
  etransitivity; [apply filter_length_le|]. cbn. lia.
Qed.

(** The steps of the loop other than moves stand at the centre of a
    section. *)
Lemma bodySteps_positions (sections : list PDFSection) (t : Z) :
  Forall (fun s =>
            animation_action s <> move ->
            exists r, In r sections /\
                      bubble_position s = center (boundingBox r))
         (bodySteps Math_sin t sections).
Proof.
  apply bodySteps_Forall_In.
  - intros t' section Hin. unfold sectionSteps.
    repeat (constructor; [cbn; intros _; exists section; auto|]).
    constructor.
  - intros t' p H. contradiction H. reflexivity.
Qed.

(** X20.  Whatever the prop, the storyboard of the scanner is playable,
    has at least seven steps, so that it is never the one-step storyboard
    of the empty list, and lasts 189200 ms at most, five regions being the
    most there can be. *)
Theorem animationStoryboard_playable (resumeData : option ResumeData) :
  playable (animationStoryboard Math_sin resumeData) /\
  (7 <= List.length (animationStoryboard Math_sin resumeData))%nat /\
  Forall (fun s => timeline s <= 189200)
         (animationStoryboard Math_sin resumeData).
Proof.
  rewrite animationStoryboard_eq.
  assert (Hdefault :
    playable getDefaultStoryboard /\
    (7 <= List.length getDefaultStoryboard)%nat /\
    Forall (fun s => timeline s <= 189200) getDefaultStoryboard).
  { split; [exact getDefaultStoryboard_playable_aux|].
    split; [cbn; lia|].
    unfold getDefaultStoryboard. repeat (constructor; [cbn; lia|]).
    constructor. }
  destruct resumeData as [d|]; [|exact Hdefault].
  destruct (existsb (groupPresent d) fieldOrder) eqn:Hex; [|exact Hdefault].
  rewrite <- hasRegions_groupPresent in Hex. apply Nat.ltb_lt in Hex.
  pose proof (length_extractPDFSections d) as Hle.
  cbn zeta. set (sections := extractPDFSections d) in *.
  split; [apply storyboard_playable|]. split.
  - rewrite length_storyboard. destruct sections; cbn [List.length] in *; lia.
  - destruct (timeline_storyboard Math_sin sections (mkDimensions 800 600))
      as [Hend Hall].
    rewrite Hend. eapply Forall_impl; [|exact Hall].
    cbn beta. intros s Hs.
    destruct sections; cbn [List.length] in *; lia.
Qed.

(** X21.  Whatever the prop, every step of the scanner's storyboard other
    than a move stands on the 800 x 600 canvas. *)
Theorem animationStoryboard_on_canvas (resumeData : option ResumeData) :
  Forall (fun s =>
            animation_action s <> move ->
            onCanvas (mkDimensions 800 600) (bubble_position s) = true)
         (animationStoryboard Math_sin resumeData).
Proof.
  rewrite animationStoryboard_eq.
  assert (Hdefault :
    Forall (fun s =>
              animation_action s <> move ->
              onCanvas (mkDimensions 800 600) (bubble_position s) = true)
           getDefaultStoryboard).
  { unfold getDefaultStoryboard.
    repeat (constructor; [intros _; reflexivity|]). constructor. }
  destruct resumeData as [d|]; [|exact Hdefault].
  destruct (existsb (groupPresent d) fieldOrder); [|exact Hdefault].
  cbn zeta. rewrite !Forall_app. repeat split.
  - destruct (extractPDFSections d); constructor; [|constructor].
    intros H. contradiction H. reflexivity.
  - eapply Forall_impl; [|apply bodySteps_positions].
    cbn beta. intros s Hs Hmove.
    destruct (Hs Hmove) as (r & Hin & ->).
    pose proof (extractPDFSections_on_canvas d) as Hall.
    rewrite Forall_forall in Hall. apply Hall. exact Hin.
  - constructor; [|constructor]. intros _. reflexivity.
Qed.

End ScannerProperties.

(** * The sine and the storyboard *)

Lemma schedule_pathMoves (pts1 pts2 : list Position) (t : Z) (i : nat) :
  List.length pts1 = List.length pts2 ->
  map schedule (pathMoves t i pts1) = map schedule (pathMoves t i pts2).
Proof.
  revert pts2 i. induction pts1 as [|p pts1 IH]; intros [|q pts2] i Hlen;
    try discriminate; [reflexivity|].
  cbn. f_equal. apply IH. injection Hlen as Hlen. exact Hlen.
Qed.

Lemma schedule_bodySteps (sin1 sin2 : float -> float)
  (sections : list PDFSection) (t : Z) :
  map schedule (bodySteps sin1 t sections)
  = map schedule (bodySteps sin2 t sections) /\
  filter (fun s => negb (Action_eqb (animation_action s) move))
         (bodySteps sin1 t sections)
  = filter (fun s => negb (Action_eqb (animation_action s) move))
           (bodySteps sin2 t sections).
Proof.
  revert t. induction sections as [|section rest IH]; intros t.
  - split; reflexivity.
  - destruct rest as [|next rest']; [split; reflexivity|].
    rewrite !bodySteps_two. destruct (IH (t + 36300)) as [IHs IHf].
    rewrite !map_app, !filter_app, IHs, IHf.
    destruct (transitionSteps_four sin1 (t + 36000) section next)
      as (p0 & p1 & p2 & p3 & _ & ->).
    destruct (transitionSteps_four sin2 (t + 36000) section next)
      as (q0 & q1 & q2 & q3 & _ & ->).
    split; reflexivity.
Qed.

(** X22.  The sine of the host decides the positions of the moves along
    the curved paths and nothing else: under two sines the storyboards have
    the same schedule (timelines, actions, highlight areas, tags and
    kinds), and the same steps other than moves. *)
Theorem sine_only_places_moves (sin1 sin2 : float -> float)
  (sections : list PDFSection) (dims : Dimensions) :
  exists sb1 sb2,
    generateAnimationStoryboard sin1 sections dims = Ok sb1 /\
    generateAnimationStoryboard sin2 sections dims = Ok sb2 /\
    map schedule sb1 = map schedule sb2 /\
    filter (fun s => negb (Action_eqb (animation_action s) move)) sb1
    = filter (fun s => negb (Action_eqb (animation_action s) move)) sb2.
Proof.
  do 2 eexists.
  split; [apply generateAnimationStoryboard_eq|].
  split; [apply generateAnimationStoryboard_eq|].
  destruct (schedule_bodySteps sin1 sin2 sections (startTime sections))
    as [Hs Hf].
  rewrite !map_app, !filter_app, Hs, Hf. split; reflexivity.
Qed.

(** * Runs of the extra theorems *)

(** X2 on a storyboard for two regions. *)
Lemma timeline_exact_run :
  exists sb,
    generateAnimationStoryboard sin_approx [nameRegion; skillsRegion] canvas
    = Ok sb /\
    Forall (fun s => 0 <= timeline s < 2 ^ 53) sb.
Proof.
  apply (timeline_exact sin_approx [nameRegion; skillsRegion] canvas).
  cbn. lia.
Defined.

(** X6 on two inputs that differ in text and confidence only. *)
Lemma storyboard_ignores_text_and_confidence_run :
  generateAnimationStoryboard sin_approx [nameRegion; skillsRegion] canvas
  = generateAnimationStoryboard sin_approx
      [ mkSection name_t "Grace Hopper" (mkBox 100 70 200 30) 0.5;
        mkSection skills_t EmptyString (mkBox 130 190 300 60) 0.1 ]
      canvas.
Proof.
  apply (storyboard_ignores_text_and_confidence sin_approx); reflexivity.
Defined.

